(** * snakemake/deployment/docker.py: a shallow embedding and its properties

    The module wraps an external container CLI ([nerdctl]).  It has three
    parts: the [Docker] singleton that probes the CLI, the [Image] class
    that names and pulls an image, and the function [shellcmd] that builds
    the command line.

    Strings are Python [str] values restricted to ASCII, so that
    [str.encode()] and [bytes.decode()] are the identity.  Objects live in
    a heap indexed by locations, and [Docker.instance] is a field of the
    state.  The operating system and the names that are imported from
    [snakemake.common] are collected in a record [Host].  A computation
    takes a host and a state and gives the events it caused (log
    records, lookups on the search path, subprocesses, tests for
    existence), the state it left and its value or the exception it
    raised. *)

From Stdlib Require Import String Ascii List ZArith NArith Lia Bool.
From stdpp Require Import base gmap strings list.

Local Open Scope stdpp_scope.

(** ** Python string operations used by the module *)

Module Py.

(** The newline character, written ["\n"] in the source. *)
Definition nl : string := String (ascii_of_nat 10) EmptyString.

(** The tab character. *)
Definition tab : string := String (ascii_of_nat 9) EmptyString.

(** [c in s] for a one-character needle. *)
Fixpoint contains (c : ascii) (s : string) : bool :=
  match s with
  | EmptyString => false
  | String x s' => Ascii.eqb x c || contains c s'
  end.

(** [s.startswith(p)]. *)
Definition startswith (s p : string) : bool := String.prefix p s.

(** [s[1:]]. *)
Definition tail1 (s : string) : string :=
  match s with
  | EmptyString => EmptyString
  | String _ s' => s'
  end.

(** The text after the last occurrence of [sep], the whole string when
    [sep] does not occur: [s.rsplit(sep, 1)[-1]] for a one-character
    separator, and also [s[s.rfind(sep) + 1:]]. *)
Fixpoint after_last (sep : ascii) (s : string) : string :=
  match s with
  | EmptyString => EmptyString
  | String x s' =>
      if contains sep s' then after_last sep s'
      else if Ascii.eqb x sep then s' else s
  end.

Definition rsplit1_last (s : string) (sep : ascii) : string :=
  after_last sep s.

(** [s.replace(old, new)] for a one-character [old]. *)
Fixpoint replace (s : string) (old : ascii) (new : string) : string :=
  match s with
  | EmptyString => EmptyString
  | String x s' =>
      (if Ascii.eqb x old then new else String x EmptyString)
        +:+ replace s' old new
  end.

(** [sep.join(l)]. *)
Fixpoint join (sep : string) (l : list string) : string :=
  match l with
  | [] => EmptyString
  | [x] => x
  | x :: l' => x +:+ sep +:+ join sep l'
  end.

(** Truth value of a [str]: empty strings are false. *)
Definition truthy (s : string) : bool :=
  match s with EmptyString => false | _ => true end.

(** Truth value of [None | str]. *)
Definition truthy_opt (o : option string) : bool :=
  match o with None => false | Some s => truthy s end.

(** A keyword argument with a default: left out at the call site, or
    passed. *)
Inductive arg (A : Type) : Type :=
| Omitted
| Passed (a : A).
Arguments Omitted {A}.
Arguments Passed {A} a.

Definition or_default {A : Type} (d : A) (x : arg A) : A :=
  match x with Omitted => d | Passed a => a end.

End Py.

(** ** [os.path] on POSIX *)

Module posixpath.

(** [os.path.split(p)[-1]]: [i = p.rfind('/') + 1; tail = p[i:]]. *)
Definition split_tail (p : string) : string := Py.after_last "/" p.

Fixpoint endswith_slash (a : string) : bool :=
  match a with
  | EmptyString => false
  | String x EmptyString => Ascii.eqb x "/"
  | String _ a' => endswith_slash a'
  end.

(** [os.path.join(a, b)] for two components. *)
Definition join (a b : string) : string :=
  if Py.startswith b "/" then b
  else if negb (Py.truthy a) || endswith_slash a then a +:+ b
  else a +:+ "/" +:+ b.

End posixpath.

(** ** [distutils.version.LooseVersion] *)

Module LooseVersion.

(** A parsed component: digit runs become integers, everything else
    stays a string. *)
Inductive component : Type :=
| CInt (n : N)
| CStr (s : string).

(** The regular expression [(\d+ | [a-z]+ | \.)] distinguishes four
    kinds of characters. *)
Inductive kind : Type := KDigit | KLower | KDot | KOther.

Definition kind_eqb (a b : kind) : bool :=
  match a, b with
  | KDigit, KDigit | KLower, KLower | KDot, KDot | KOther, KOther => true
  | _, _ => false
  end.

Definition classify (c : ascii) : kind :=
  let n := N_of_ascii c in
  if (48 <=? n)%N && (n <=? 57)%N then KDigit
  else if (97 <=? n)%N && (n <=? 122)%N then KLower
  else if (n =? 46)%N then KDot
  else KOther.

(** [component_re.split(vstring)] without the empty strings: maximal
    runs of digits, of lower-case letters and of other characters, and
    every dot on its own. *)
Fixpoint runs (s : string) : list (kind * string) :=
  match s with
  | EmptyString => []
  | String c s' =>
      let k := classify c in
      match runs s' with
      | (k', r) :: rest =>
          if kind_eqb k k' && negb (kind_eqb k KDot)
          then (k, String c r) :: rest
          else (k, String c EmptyString) :: (k', r) :: rest
      | [] => [(k, String c EmptyString)]
      end
  end.

(** The value of a run of decimal digits. *)
Fixpoint int_of_digits (acc : N) (s : string) : N :=
  match s with
  | EmptyString => acc
  | String c s' => int_of_digits (acc * 10 + (N_of_ascii c - 48))%N s'
  end.

(** The longest text that [int] converts, leading zeros counted:
    [sys.int_info.default_max_str_digits] of CPython 3.11, the
    interpreter that has both this limit and [distutils]. *)
Definition int_max_str_digits : N := 4300.

(** [int(x)] on a run of decimal digits; [None] is the [ValueError] of
    a run that is longer than the limit. *)
Definition int (x : string) : option N :=
  if (N.of_nat (String.length x) <=? int_max_str_digits)%N
  then Some (int_of_digits 0 x) else None.

(** [LooseVersion.parse]: the components that are neither empty nor a
    dot; a component that [int] converts becomes a number, and one on
    which [int] raises [ValueError] stays as it is. *)
Definition parse (vstring : string) : list component :=
  flat_map
    (fun kr : kind * string =>
       match fst kr with
       | KDot => []
       | KDigit =>
           match int (snd kr) with
           | Some n => [CInt n]
           | None => [CStr (snd kr)]
           end
       | KLower | KOther => [CStr (snd kr)]
       end)
    (runs vstring).

(** The attribute [version] of [LooseVersion(vstring)]: [__init__]
    parses a string that is not empty and does nothing for the empty
    string, which leaves the object without the attribute. *)
Definition version (vstring : string) : option (list component) :=
  if Py.truthy vstring then Some (parse vstring) else None.

Definition component_eqb (x y : component) : bool :=
  match x, y with
  | CInt a, CInt b => (a =? b)%N
  | CStr a, CStr b => String.eqb a b
  | _, _ => false
  end.

(** [x < y] on components; [None] is the [TypeError] that Python 3
    raises when an integer meets a string. *)
Definition component_lt (x y : component) : option bool :=
  match x, y with
  | CInt a, CInt b => Some (a <? b)%N
  | CStr a, CStr b => Some (String.ltb a b)
  | _, _ => None
  end.

(** Python's list ordering: the first pair of unequal elements decides,
    a proper prefix is smaller. *)
Fixpoint list_lt (a b : list component) : option bool :=
  match a, b with
  | [], [] => Some false
  | [], _ :: _ => Some true
  | _ :: _, [] => Some false
  | x :: a', y :: b' =>
      if component_eqb x y then list_lt a' b' else component_lt x y
  end.

Fixpoint list_eqb (a b : list component) : bool :=
  match a, b with
  | [], [] => true
  | x :: a', y :: b' => component_eqb x y && list_eqb a' b'
  | _, _ => false
  end.

(** [LooseVersion._cmp]: [0] when the versions are equal, [-1] when
    [self.version < other.version], [1] otherwise. *)
Definition _cmp (self other : list component) : option Z :=
  if list_eqb self other then Some 0%Z
  else match list_lt self other with
       | None => None
       | Some true => Some (-1)%Z
       | Some false => Some 1%Z
       end.

(** What a comparison gives: a truth value, the [TypeError] of an
    integer that meets a string, or the [AttributeError] of an object
    without [version]. *)
Inductive answer : Type :=
| Is (b : bool)
| RaisesTypeError
| RaisesAttributeError.

(** [LooseVersion(a) >= LooseVersion(b)]: [__ge__] calls [_cmp], which
    reads [self.version] and [other.version]. *)
Definition ge (a b : string) : answer :=
  match version a, version b with
  | Some self, Some other =>
      match _cmp self other with
      | None => RaisesTypeError
      | Some c => Is (0 <=? c)%Z
      end
  | _, _ => RaisesAttributeError
  end.

End LooseVersion.

(** ** [hashlib.md5] (RFC 1321) *)

Module hashlib.

Local Open Scope N_scope.

Definition mask32 : N := 0xffffffff.
Definition add32 (a b : N) : N := N.land (a + b) mask32.
Definition not32 (a : N) : N := N.lxor a mask32.
Definition rotl32 (x c : N) : N :=
  N.lor (N.land (N.shiftl x c) mask32) (N.shiftr x (32 - c)).

Definition shifts : list N :=
  [7; 12; 17; 22; 7; 12; 17; 22; 7; 12; 17; 22; 7; 12; 17; 22;
   5; 9; 14; 20; 5; 9; 14; 20; 5; 9; 14; 20; 5; 9; 14; 20;
   4; 11; 16; 23; 4; 11; 16; 23; 4; 11; 16; 23; 4; 11; 16; 23;
   6; 10; 15; 21; 6; 10; 15; 21; 6; 10; 15; 21; 6; 10; 15; 21].

(** [floor(2^32 * abs(sin(i + 1)))] for [i = 0 .. 63]. *)
Definition sines : list N :=
  [0xd76aa478; 0xe8c7b756; 0x242070db; 0xc1bdceee;
   0xf57c0faf; 0x4787c62a; 0xa8304613; 0xfd469501;
   0x698098d8; 0x8b44f7af; 0xffff5bb1; 0x895cd7be;
   0x6b901122; 0xfd987193; 0xa679438e; 0x49b40821;
   0xf61e2562; 0xc040b340; 0x265e5a51; 0xe9b6c7aa;
   0xd62f105d; 0x02441453; 0xd8a1e681; 0xe7d3fbc8;
   0x21e1cde6; 0xc33707d6; 0xf4d50d87; 0x455a14ed;
   0xa9e3e905; 0xfcefa3f8; 0x676f02d9; 0x8d2a4c8a;
   0xfffa3942; 0x8771f681; 0x6d9d6122; 0xfde5380c;
   0xa4beea44; 0x4bdecfa9; 0xf6bb4b60; 0xbebfbc70;
   0x289b7ec6; 0xeaa127fa; 0xd4ef3085; 0x04881d05;
   0xd9d4d039; 0xe6db99e5; 0x1fa27cf8; 0xc4ac5665;
   0xf4292244; 0x432aff97; 0xab9423a7; 0xfc93a039;
   0x655b59c3; 0x8f0ccc92; 0xffeff47d; 0x85845dd1;
   0x6fa87e4f; 0xfe2ce6e0; 0xa3014314; 0x4e0811a1;
   0xf7537e82; 0xbd3af235; 0x2ad7d2bb; 0xeb86d391].

Definition bytes_of_string (s : string) : list N :=
  map N_of_ascii (list_ascii_of_string s).

(** The 64-bit message length in bits, least significant byte first. *)
Definition length_bytes (bits : N) : list N :=
  map (fun i : nat => N.land (N.shiftr bits (8 * N.of_nat i)) 0xff)
      (seq 0 8).

(** The message, a [0x80] byte, zero bytes up to 56 modulo 64, and the
    length. *)
Definition pad (msg : list N) : list N :=
  let len := N.of_nat (length msg) in
  let zeros := N.to_nat ((119 - len mod 64) mod 64) in
  msg ++ [0x80] ++ repeat 0 zeros ++ length_bytes (8 * len).

Fixpoint blocks (fuel : nat) (l : list N) : list (list N) :=
  match fuel, l with
  | O, _ | _, [] => []
  | S fuel', _ => firstn 64 l :: blocks fuel' (skipn 64 l)
  end.

(** Word [g] of a block, little endian. *)
Definition word (block : list N) (g : nat) : N :=
  let b (k : nat) := nth (4 * g + k) block 0 in
  b 0%nat + N.shiftl (b 1%nat) 8 + N.shiftl (b 2%nat) 16
  + N.shiftl (b 3%nat) 24.

Definition regs : Type := N * N * N * N.

Definition step (block : list N) (r : regs) (i : nat) : regs :=
  let '(a, b, c, d) := r in
  let '(f, g) :=
    if (i <? 16)%nat then
      (N.lor (N.land b c) (N.land (not32 b) d), i)
    else if (i <? 32)%nat then
      (N.lor (N.land d b) (N.land (not32 d) c), ((5 * i + 1) mod 16)%nat)
    else if (i <? 48)%nat then
      (N.lxor b (N.lxor c d), ((3 * i + 5) mod 16)%nat)
    else
      (N.lxor c (N.lor b (not32 d)), ((7 * i) mod 16)%nat) in
  let f' := add32 (add32 (add32 f a) (nth i sines 0)) (word block g) in
  (d, add32 b (rotl32 f' (nth i shifts 0)), b, c).

Definition compress (r : regs) (block : list N) : regs :=
  let '(a0, b0, c0, d0) := r in
  let '(a, b, c, d) := fold_left (step block) (seq 0 64) r in
  (add32 a0 a, add32 b0 b, add32 c0 c, add32 d0 d).

Definition init : regs := (0x67452301, 0xefcdab89, 0x98badcfe, 0x10325476).

Definition word_bytes (w : N) : list N :=
  [N.land w 0xff; N.land (N.shiftr w 8) 0xff;
   N.land (N.shiftr w 16) 0xff; N.land (N.shiftr w 24) 0xff].

Definition digest_of_regs (r : regs) : list N :=
  let '(a, b, c, d) := r in
  word_bytes a ++ word_bytes b ++ word_bytes c ++ word_bytes d.

(** [hashlib.md5(data).digest()]. *)
Definition md5_digest (data : list N) : list N :=
  let padded := pad data in
  digest_of_regs (fold_left compress (blocks (length padded) padded) init).

Definition hexchars : list ascii :=
  ["0"; "1"; "2"; "3"; "4"; "5"; "6"; "7";
   "8"; "9"; "a"; "b"; "c"; "d"; "e"; "f"]%char.

Definition hexchar (n : N) : ascii := nth (N.to_nat n) hexchars "0"%char.

Fixpoint hex (bytes : list N) : string :=
  match bytes with
  | [] => EmptyString
  | b :: bytes' =>
      String (hexchar (b / 16)) (String (hexchar (b mod 16)) (hex bytes'))
  end.

(** [m = hashlib.md5(); m.update(s.encode()); m.hexdigest()]. *)
Definition md5_hexdigest (s : string) : string :=
  hex (md5_digest (bytes_of_string s)).

End hashlib.

(** ** The world outside the module *)

(** The outcome of [subprocess.check_output]: the captured standard
    output of a process that exited with status 0, or the
    [CalledProcessError] carrying what was captured. *)
Inductive proc_result : Type :=
| Exit0 (stdout : string)
| CalledProcessError (stdout stderr : string).

(** What [snakemake.common.parse_uri] returns. *)
Record Uri : Type := { scheme : string; uri_path : string }.

(** The operating system as the module sees it ([shutil.which],
    [subprocess.check_output], [os.path.exists], [os.getcwd], the
    built-in [hash] of strings), and what the module imports from
    [snakemake.common]: the constant [SNAKEMAKE_SEARCHPATH] and the
    helpers [is_local_file] and [parse_uri]. *)
Record Host : Type := {
  which : string -> option string;
  check_output : list string -> option string -> proc_result;
  exists_ : string -> bool;
  getcwd : string;
  str_hash : string -> Z;
  SNAKEMAKE_SEARCHPATH : string;
  is_local_file : string -> bool;
  parse_uri : string -> Uri
}.

Definition SNAKEMAKE_MOUNTPOINT : string := "/mnt/snakemake".

(** What a run leaves behind to be observed. *)
Inductive level : Type := DEBUG | INFO.

Inductive payload : Type :=
| Text (s : string)
| Items (l : list string).

Inductive event : Type :=
| Log (lv : level) (msg : payload)
| Which (cmd : string)
| Subprocess (argv : list string) (cwd : option string)
| Exists (path : string).

Definition is_subprocess (e : event) : bool :=
  match e with Subprocess _ _ => true | _ => false end.

(** The subprocesses of a trace, in order. *)
Definition subprocesses (t : list event) : list event :=
  List.filter is_subprocess t.

(** ** Objects and the heap *)

Definition loc : Type := positive.

(** The attributes of a [Docker] object. *)
Record DockerObj : Type := {
  checked : bool;
  _version : option string
}.

(** The attributes of an [Image] object; [_hash] is the cell of the
    lazy property [hash]. *)
Record ImageObj : Type := {
  singularity : loc;
  url : string;
  _img_dir : string;
  is_containerized : bool;
  _hash : option string
}.

Inductive object : Type :=
| ODocker (d : DockerObj)
| OImage (i : ImageObj).

(** [instance] is the class attribute [Docker.instance]. *)
Record State : Type := {
  instance : option loc;
  heap : gmap loc object
}.

Definition initial : State := {| instance := None; heap := ∅ |}.

(** The argument [dag] of [Image.__init__], as far as it is read. *)
Record Persistence : Type := { container_img_path : string }.
Record Workflow : Type := { persistence : Persistence }.
Record DAG : Type := { workflow : Workflow }.

(** ** Exceptions and the monad of effects *)

Inductive exn : Type :=
| WorkflowError (msg : string)
| AssertionError (msg : string)
| TypeError
| AttributeError.

Record Outcome (A : Type) : Type := mkOutcome {
  events : list event;
  final : State;
  result : exn + A
}.
Arguments mkOutcome {A} _ _ _.
Arguments events {A} _.
Arguments final {A} _.
Arguments result {A} _.

Definition M (A : Type) : Type := Host -> State -> Outcome A.

Definition ret {A : Type} (a : A) : M A :=
  fun _ s => mkOutcome [] s (inr a).

Definition bind {A B : Type} (m : M A) (k : A -> M B) : M B :=
  fun h s =>
    match m h s with
    | mkOutcome t s' (inl e) => mkOutcome t s' (inl e)
    | mkOutcome t s' (inr a) =>
        match k a h s' with
        | mkOutcome t' s'' r => mkOutcome (t ++ t') s'' r
        end
    end.

Definition raise {A : Type} (e : exn) : M A :=
  fun _ s => mkOutcome [] s (inl e).

Definition emit (e : event) : M unit :=
  fun _ s => mkOutcome [e] s (inr tt).

Definition ask : M Host := fun h s => mkOutcome [] s (inr h).
Definition get : M State := fun _ s => mkOutcome [] s (inr s).
Definition put (s : State) : M unit := fun _ _ => mkOutcome [] s (inr tt).

Notation "'let!' x ':=' m 'in' k" := (bind m (fun x => k))
  (at level 10, x name, m at level 100, k at level 200).
Notation "m ;;; k" := (bind m (fun _ => k))
  (at level 100, k at level 200, right associativity).

(** Attribute access on the object at a location. *)
Definition docker_at (l : loc) : M DockerObj :=
  let! s := get in
  match heap s !! l with
  | Some (ODocker d) => ret d
  | _ => raise AttributeError
  end.

Definition image_at (l : loc) : M ImageObj :=
  let! s := get in
  match heap s !! l with
  | Some (OImage i) => ret i
  | _ => raise AttributeError
  end.

Definition store (l : loc) (o : object) : M unit :=
  let! s := get in
  put {| instance := instance s; heap := <[l := o]> (heap s) |}.

Definition alloc (o : object) : M loc :=
  let! s := get in
  let l := fresh (dom (heap s)) in
  put {| instance := instance s; heap := <[l := o]> (heap s) |} ;;;
  ret l.

(** The calls into the operating system and the logger. *)
Definition shutil_which (cmd : string) : M (option string) :=
  emit (Which cmd) ;;; let! h := ask in ret (which h cmd).

Definition subprocess_check_output (argv : list string)
    (cwd : option string) : M proc_result :=
  emit (Subprocess argv cwd) ;;;
  let! h := ask in ret (check_output h argv cwd).

Definition os_path_exists (p : string) : M bool :=
  emit (Exists p) ;;; let! h := ask in ret (exists_ h p).

Definition logger_debug (msg : payload) : M unit := emit (Log DEBUG msg).
Definition logger_info (msg : payload) : M unit := emit (Log INFO msg).

(** ** class Docker *)

Module Docker.

(** [__new__]: the instance stored in the class, or a new object that
    is stored there.  The new object is allocated with the attributes
    that [__init__] assigns next. *)
Definition __new__ : M loc :=
  let! s := get in
  match instance s with
  | Some inst => ret inst
  | None =>
      let! inst := alloc (ODocker {| checked := false; _version := None |}) in
      let! s' := get in
      put {| instance := Some inst; heap := heap s' |} ;;;
      ret inst
  end.

Definition __init__ (self : loc) : M unit :=
  store self (ODocker {| checked := false; _version := None |}).

(** The call [Docker()]: [__new__], then [__init__] on what it
    returned. *)
Definition __call__ : M loc :=
  let! self := __new__ in
  __init__ self ;;;
  ret self.

(** The property [version]. *)
Definition version (self : loc) : M string :=
  let! d := docker_at self in
  match _version d with
  | Some v => ret v
  | None =>
      raise (AssertionError
               "bug: Docker version accessed before check() has been called")
  end.

(** [if not LooseVersion(v) >= LooseVersion(minimum): raise ...]. *)
Definition require_version (v minimum msg : string) : M unit :=
  match LooseVersion.ge v minimum with
  | LooseVersion.RaisesAttributeError => raise AttributeError
  | LooseVersion.RaisesTypeError => raise TypeError
  | LooseVersion.Is false => raise (WorkflowError msg)
  | LooseVersion.Is true => ret tt
  end.

Definition check (self : loc) : M unit :=
  let! d := docker_at self in
  if negb (checked d) then
    let! found := shutil_which "nerdctl" in
    if negb (Py.truthy_opt found) then
      raise (WorkflowError
               ("The Docker command has to be available in order to use "
                +:+ "Docker integration."))
    else
      let! out := subprocess_check_output ["nerdctl"; "--version"] None in
      match out with
      | CalledProcessError _ err =>
          raise (WorkflowError
                   ("Failed to get Docker version:" +:+ Py.nl +:+ err))
      | Exit0 v =>
          let! v :=
            (if Py.startswith v "apptainer" then
               let v := Py.rsplit1_last v " " in
               require_version v "1.0.0"
                 "Minimum apptainer version is 1.0.0." ;;;
               ret v
             else
               let v := Py.rsplit1_last v " " in
               let v := if Py.startswith v "v" then Py.tail1 v else v in
               require_version v "0.22.2"
                 "Minimum Docker version is 0.22.2." ;;;
               ret v) in
          let! d' := docker_at self in
          store self (ODocker {| checked := checked d'; _version := Some v |})
      end
  else ret tt.

End Docker.

(** ** class Image *)

Module Image.

(** Modelled from the spec: the decorator [lazy_property] of
    [snakemake.common], which the module imports.  The value is computed
    on the first access, kept in the instance and returned from there
    afterwards. *)
Definition lazy_property (method : ImageObj -> string) (self : loc)
  : M string :=
  let! i := image_at self in
  match _hash i with
  | Some cached => ret cached
  | None =>
      let value := method i in
      store self
        (OImage {| singularity := singularity i; url := url i;
                   _img_dir := _img_dir i;
                   is_containerized := is_containerized i;
                   _hash := Some value |}) ;;;
      ret value
  end.

(** The call [Image(url, dag, is_containerized)].  The object is
    allocated once [__init__] has run to its end. *)
Definition __init__ (url : string) (dag : DAG) (is_containerized : bool)
  : M loc :=
  if Py.contains " " url then
    raise (WorkflowError "Invalid docker image URL containing whitespace.")
  else
    let! d := Docker.__call__ in
    alloc (OImage {| singularity := d; url := url;
                     _img_dir := container_img_path
                                   (persistence (workflow dag));
                     is_containerized := is_containerized;
                     _hash := None |}).

Definition is_local (self : loc) : M bool :=
  let! i := image_at self in
  let! h := ask in
  ret (is_local_file h (url i)).

Definition hash : loc -> M string :=
  lazy_property (fun i => hashlib.md5_hexdigest (url i)).

Definition path (self : loc) : M string :=
  let! local := is_local self in
  if local then
    let! i := image_at self in
    let! h := ask in
    ret (uri_path (parse_uri h (url i)))
  else
    let! i := image_at self in
    let! digest := hash self in
    ret (posixpath.join (_img_dir i) digest +:+ ".simg").

Definition pull (self : loc) (dryrun : Py.arg bool) : M unit :=
  let dryrun := Py.or_default false dryrun in
  let! i := image_at self in
  Docker.check (singularity i) ;;;
  let! local := is_local self in
  if local then ret tt
  else if dryrun then
    logger_info (Text ("Docker image " +:+ url i +:+ " will be pulled."))
  else
    let! p := path self in
    logger_debug (Text ("Docker image location: " +:+ p)) ;;;
    let! p := path self in
    let! present := os_path_exists p in
    if negb present then
      logger_info (Text ("Pulling Docker image " +:+ url i +:+ ".")) ;;;
      let cmd := ["nerdctl"; "pull"; url i] in
      logger_debug (Items cmd) ;;;
      let! out := subprocess_check_output cmd (Some (_img_dir i)) in
      match out with
      | Exit0 _ => ret tt
      | CalledProcessError stdout _ =>
          raise (WorkflowError
                   ("Failed to pull Docker image from " +:+ url i +:+ ":"
                    +:+ Py.nl +:+ stdout))
      end
    else ret tt.

Definition __hash__ (self : loc) : M Z :=
  let! digest := hash self in
  let! h := ask in
  ret (str_hash h digest).

Definition __eq__ (self other : loc) : M bool :=
  let! a := image_at self in
  let! b := image_at other in
  ret (String.eqb (url a) (url b)).

End Image.

(** ** shellcmd *)

Definition envvar_item (kv : string * string) : string :=
  "DOCKERENV_" +:+ fst kv +:+ "=" +:+ snd kv.

Definition shellcmd (img_path cmd : string)
    (args : Py.arg string)
    (quiet : Py.arg bool)
    (envvars : Py.arg (option (list (string * string))))
    (shell_executable : Py.arg (option string))
    (container_workdir : Py.arg (option string))
    (is_python_script : Py.arg bool) : M string :=
  let args := Py.or_default EmptyString args in
  let quiet := Py.or_default false quiet in
  let envvars := Py.or_default None envvars in
  let shell_executable := Py.or_default None shell_executable in
  let container_workdir := Py.or_default (Some "None") container_workdir in
  let is_python_script := Py.or_default false is_python_script in
  logger_debug (Text ("args: " +:+ args)) ;;;
  let envvars :=
    match envvars with
    | Some (kv :: d) => Py.join " " (map envvar_item (kv :: d))
    | _ => EmptyString
    end in
  let shell_executable :=
    match shell_executable with
    | None => "sh"
    | Some p => posixpath.split_tail p
    end in
  let docker_cmd := "nerdctl" in
  let! h := ask in
  let args :=
    if is_python_script then
      args +:+ " --bind " +:+ SNAKEMAKE_SEARCHPATH h +:+ ":"
      +:+ SNAKEMAKE_MOUNTPOINT
    else args in
  let! args :=
    (match container_workdir with
     | Some (String c d) =>
         let container_workdir := String c d in
         logger_debug (Text container_workdir) ;;;
         let args := args +:+ " -w " +:+ container_workdir in
         ret (args +:+ " -v" +:+ getcwd h +:+ ":/data")
     | _ =>
         logger_debug (Text "No container workdir set.") ;;;
         ret args
     end) in
  let cmd :=
    envvars +:+ " " +:+ docker_cmd +:+ " run --rm  " +:+ args +:+ " "
    +:+ img_path +:+ " " +:+ shell_executable +:+ " -c '"
    +:+ Py.replace cmd "'" "'\''" +:+ "'" in
  logger_debug (Text cmd) ;;;
  ret cmd.

(** ** A sample environment

    [nerdctl] is installed and prints [out] for [--version]; [pull]
    fails for the image [docker://missing]; nothing is cached yet except
    what [cached] names; plain paths and [file://] URLs are local. *)

Definition strip_file_scheme (u : string) : string :=
  if Py.startswith u "file://" then String.substring 7 (String.length u - 7) u
  else u.

Definition sample_host (out : string) (cached : string -> bool) : Host := {|
  which := fun c =>
    if String.eqb c "nerdctl" then Some "/usr/local/bin/nerdctl" else None;
  check_output := fun argv _ =>
    match argv with
    | [_; "--version"] => Exit0 out
    | [_; "pull"; "docker://missing"] =>
        CalledProcessError "manifest unknown" EmptyString
    | _ => Exit0 EmptyString
    end;
  exists_ := cached;
  getcwd := "/home/user/workflow";
  str_hash := fun s => Z.of_nat (String.length s);
  SNAKEMAKE_SEARCHPATH := "/opt/snakemake";
  is_local_file := fun u =>
    Py.startswith u "file://" || Py.startswith u "/";
  parse_uri := fun u => {| scheme := "file"; uri_path := strip_file_scheme u |}
|}.

Definition sample_dag (dir : string) : DAG :=
  {| workflow := {| persistence := {| container_img_path := dir |} |} |}.

(** ** Vocabulary of the statements *)

(** The separator that [os.path.join] puts after a directory. *)
Definition join_sep (dir : string) : string :=
  if negb (Py.truthy dir) || posixpath.endswith_slash dir
  then EmptyString else "/".

(** The attributes that [Docker.__init__] assigns. *)
Definition fresh_docker : DockerObj :=
  {| checked := false; _version := None |}.

(** The location that [Docker()] returns in a state. *)
Definition singleton_loc (s : State) : loc :=
  match instance s with
  | Some inst => inst
  | None => fresh (dom (heap s))
  end.

(** The version probe of [Docker.check]. *)
Definition probe : event := Subprocess ["nerdctl"; "--version"] None.

(** The image object once its digest is kept in the instance. *)
Definition memoized (i : ImageObj) : ImageObj :=
  {| singularity := singularity i; url := url i; _img_dir := _img_dir i;
     is_containerized := is_containerized i;
     _hash := Some (hashlib.md5_hexdigest (url i)) |}.

(** The cell of [hash] is empty or holds the digest of the URL. *)
Definition memo_ok (i : ImageObj) : Prop :=
  _hash i = None \/ _hash i = Some (hashlib.md5_hexdigest (url i)).

(** The state after the digest of the image at [l] was asked for. *)
Definition settle (s : State) (l : loc) (i : ImageObj) : State :=
  {| instance := instance s; heap := <[l := OImage (memoized i)]> (heap s) |}.

(** ** The operations a client of the module can issue *)

Inductive op : Type :=
| NewDocker
| DockerCheck (self : loc)
| DockerVersion (self : loc)
| NewImage (url : string) (dag : DAG) (is_containerized : bool)
| ImageIsLocal (self : loc)
| ImageHash (self : loc)
| ImagePull (self : loc) (dryrun : Py.arg bool)
| ImagePath (self : loc)
| ImageDunderHash (self : loc)
| ImageEq (self other : loc)
| Shellcmd (img_path cmd : string) (args : Py.arg string)
    (quiet : Py.arg bool)
    (envvars : Py.arg (option (list (string * string))))
    (shell_executable container_workdir : Py.arg (option string))
    (is_python_script : Py.arg bool).

Definition void {A : Type} (m : M A) : M unit := let! _ := m in ret tt.

Definition call (o : op) : M unit :=
  match o with
  | NewDocker => void Docker.__call__
  | DockerCheck self => Docker.check self
  | DockerVersion self => void (Docker.version self)
  | NewImage url dag c => void (Image.__init__ url dag c)
  | ImageIsLocal self => void (Image.is_local self)
  | ImageHash self => void (Image.hash self)
  | ImagePull self dryrun => Image.pull self dryrun
  | ImagePath self => void (Image.path self)
  | ImageDunderHash self => void (Image.__hash__ self)
  | ImageEq self other => void (Image.__eq__ self other)
  | Shellcmd img_path cmd args quiet envvars sh wd py =>
      void (shellcmd img_path cmd args quiet envvars sh wd py)
  end.

(** The states of a process: it starts without objects, and every step
    is one operation, against whatever the host answers at that time. *)
Inductive reachable : State -> Prop :=
| reachable_initial : reachable initial
| reachable_call (s : State) (o : op) (h : Host) :
    reachable s -> reachable (final (call o h s)).

(** What holds of every state of a process. *)
Record invariant (s : State) : Prop := {
  inv_images :
    forall l i, heap s !! l = Some (OImage i) ->
      memo_ok i /\ instance s = Some (singularity i);
  inv_unchecked :
    forall l d, heap s !! l = Some (ODocker d) -> checked d = false;
  inv_instance :
    forall inst, instance s = Some inst ->
      exists d, heap s !! inst = Some (ODocker d)
}.

(** A computation keeps a property of the state, however it ends. *)
Definition preserves {A : Type} (P : State -> Prop) (m : M A) : Prop :=
  forall (h : Host) (s : State), P s -> P (final (m h s)).

(** The state after a sequence of operations. *)
Fixpoint run_calls (calls : list (op * Host)) (s : State) : State :=
  match calls with
  | [] => s
  | (o, h) :: calls' => run_calls calls' (final (call o h s))
  end.

(** The class attribute [Docker.instance] holds [inst]. *)
Definition instance_is (inst : loc) (s : State) : Prop :=
  instance s = Some inst.

(** The pieces of the command line that [shellcmd] puts together: the
    serialized environment, the arguments with the optional mount of the
    search path, and the flags of a working directory. *)
Definition env_prefix (envvars : Py.arg (option (list (string * string))))
  : string :=
  match Py.or_default None envvars with
  | Some (kv :: d) => Py.join " " (map envvar_item (kv :: d))
  | _ => EmptyString
  end.

Definition bind_args (h : Host) (args : Py.arg string) (py : Py.arg bool)
  : string :=
  if Py.or_default false py then
    Py.or_default EmptyString args +:+ " --bind " +:+ SNAKEMAKE_SEARCHPATH h
    +:+ ":" +:+ SNAKEMAKE_MOUNTPOINT
  else Py.or_default EmptyString args.

Definition workdir_flags (h : Host) (dir : string) : string :=
  " -w " +:+ dir +:+ " -v" +:+ getcwd h +:+ ":/data".

(** The arguments as they stand in the command line. *)
Definition final_args (h : Host) (args : Py.arg string)
    (container_workdir : Py.arg (option string)) (py : Py.arg bool)
  : string :=
  bind_args h args py
  +:+ match Py.or_default (Some "None") container_workdir with
      | Some (String c d) => workdir_flags h (String c d)
      | _ => EmptyString
      end.

(** The shell as it stands in the command line. *)
Definition shell_name (shell_executable : Py.arg (option string)) : string :=
  match Py.or_default None shell_executable with
  | None => "sh"
  | Some p => posixpath.split_tail p
  end.

(** The escaped inner command. *)
Definition escaped (cmd : string) : string := Py.replace cmd "'" "'\''".

(** The final form as the specification words it:
    [<envvars> <cliName> run --rm <args> <imagePath> <shellExecutable> -c '<escapedCmd>'],
    every placeholder separated from its neighbour by one space. *)
Definition spec_final_form
    (envvars cliName args imagePath shellExecutable escapedCmd : string)
  : string :=
  envvars +:+ " " +:+ cliName +:+ " run --rm " +:+ args +:+ " "
  +:+ imagePath +:+ " " +:+ shellExecutable +:+ " -c '" +:+ escapedCmd
  +:+ "'".

(** White space as the specification understands it: a space, a tab or
    a newline. *)
Definition has_whitespace (u : string) : bool :=
  Py.contains " " u || Py.contains (ascii_of_nat 9) u
  || Py.contains (ascii_of_nat 10) u.

(** What [pull] adds to the trace after a [check] that succeeded, when
    the image is local, the run is dry, or the image is in the cache. *)
Definition pull_tail (h : Host) (i : ImageObj) (dryrun : Py.arg bool)
  : list event :=
  if is_local_file h (url i) then []
  else if Py.or_default false dryrun then
    [Log INFO (Text ("Docker image " +:+ url i +:+ " will be pulled."))]
  else
    let p := posixpath.join (_img_dir i) (hashlib.md5_hexdigest (url i))
             +:+ ".simg" in
    [Log DEBUG (Text ("Docker image location: " +:+ p)); Exists p].

(** The image at [l] is the one with this URL and cache directory. *)
Definition image_is (l : loc) (u dir : string) (s : State) : Prop :=
  invariant s
  /\ exists i, heap s !! l = Some (OImage i) /\ url i = u /\ _img_dir i = dir.

(** ** Further vocabulary *)

(** Every [Docker] object of the heap is the one that the class holds. *)
Definition one_docker (s : State) : Prop :=
  forall l d, heap s !! l = Some (ODocker d) -> instance s = Some l.

(** The two together. *)
Definition singleton_state (s : State) : Prop :=
  invariant s /\ one_docker s.

(** The object at [l] is the image [i0], with or without its digest. *)
Definition same_image (l : loc) (i0 : ImageObj) (s : State) : Prop :=
  invariant s
  /\ (heap s !! l = Some (OImage i0)
      \/ heap s !! l = Some (OImage (memoized i0))).

(** A decimal number that [int] converts: digits, at least one and no
    more than the limit. *)
Definition is_digit (c : ascii) : bool :=
  match LooseVersion.classify c with
  | LooseVersion.KDigit => true
  | _ => false
  end.

Fixpoint all_digits (s : string) : bool :=
  match s with
  | EmptyString => true
  | String c s' => is_digit c && all_digits s'
  end.

Definition number (s : string) : Prop :=
  all_digits s = true /\ s <> EmptyString
  /\ (N.of_nat (String.length s) <= LooseVersion.int_max_str_digits)%N.

(** [c * n] of Python: the character [c], [n] times. *)
Fixpoint times (n : nat) (c : ascii) : string :=
  match n with
  | O => EmptyString
  | S n' => String c (times n' c)
  end.

(** The order of lists of numbers in which the first difference
    decides and a proper prefix is smaller: [lex_leb a b] is [a <= b]. *)
Fixpoint lex_leb (a b : list N) : bool :=
  match a, b with
  | [], _ => true
  | _ :: _, [] => false
  | x :: a', y :: b' => if (x =? y)%N then lex_leb a' b' else (x <? y)%N
  end.

(** The POSIX shell on a word that is made of single-quoted parts and
    of characters escaped with a backslash: inside single quotes every
    character stands for itself up to the closing quote; outside, a
    backslash makes the next character stand for itself, unless it is a
    newline.  [None] when the word has anything else outside the quotes
    (a line continuation included), when a quote is left open or when a
    backslash ends the word. *)
Fixpoint sh_word (quoted : bool) (w : string) : option string :=
  match w with
  | EmptyString => if quoted then None else Some EmptyString
  | String c w' =>
      if quoted then
        if Ascii.eqb c "'" then sh_word false w'
        else option_map (String c) (sh_word true w')
      else if Ascii.eqb c "'" then sh_word true w'
      else if Ascii.eqb c "\" then
        match w' with
        | EmptyString => None
        | String c' w'' =>
            if Ascii.eqb c' (ascii_of_nat 10) then None
            else option_map (String c') (sh_word false w'')
        end
      else None
  end.

(** The trace that [pull] adds after a [check] that succeeded, for a
    remote image that is not in the cache. *)
Definition pull_remote_tail (i : ImageObj) : list event :=
  let p := posixpath.join (_img_dir i) (hashlib.md5_hexdigest (url i))
           +:+ ".simg" in
  [Log DEBUG (Text ("Docker image location: " +:+ p));
   Exists p;
   Log INFO (Text ("Pulling Docker image " +:+ url i +:+ "."));
   Log DEBUG (Items ["nerdctl"; "pull"; url i]);
   Subprocess ["nerdctl"; "pull"; url i] (Some (_img_dir i))].

(** Two more sample environments: one without [nerdctl] on the search
    path, and one on which every subprocess exits with status 1 after
    writing [out] and [err]. *)
Definition host_without_cli : Host := {|
  which := fun _ => None;
  check_output := fun _ _ => Exit0 EmptyString;
  exists_ := fun _ => false;
  getcwd := "/home/user/workflow";
  str_hash := fun s => Z.of_nat (String.length s);
  SNAKEMAKE_SEARCHPATH := "/opt/snakemake";
  is_local_file := fun u =>
    Py.startswith u "file://" || Py.startswith u "/";
  parse_uri := fun u => {| scheme := "file"; uri_path := strip_file_scheme u |}
|}.

Definition host_with_failing_cli (out err : string) : Host := {|
  which := fun _ => Some "/usr/local/bin/nerdctl";
  check_output := fun _ _ => CalledProcessError out err;
  exists_ := fun _ => false;
  getcwd := "/home/user/workflow";
  str_hash := fun s => Z.of_nat (String.length s);
  SNAKEMAKE_SEARCHPATH := "/opt/snakemake";
  is_local_file := fun u =>
    Py.startswith u "file://" || Py.startswith u "/";
  parse_uri := fun u => {| scheme := "file"; uri_path := strip_file_scheme u |}
|}.

Example md5_empty :
  hashlib.md5_hexdigest EmptyString = "d41d8cd98f00b204e9800998ecf8427e".
Proof. vm_compute. reflexivity. Qed.

Example md5_abc :
  hashlib.md5_hexdigest "abc" = "900150983cd24fb0d6963f7d28e17f72".
Proof. vm_compute. reflexivity. Qed.

Example md5_fox :
  hashlib.md5_hexdigest "The quick brown fox jumps over the lazy dog"
  = "9e107d9d372bb6826bd81d3542a419d6".
Proof. vm_compute. reflexivity. Qed.

Example md5_two_blocks :
  hashlib.md5_hexdigest
    "12345678901234567890123456789012345678901234567890123456789012345678901234567890"
  = "57edf4a22be3c955ac49da2e2107b67a".
Proof. vm_compute. reflexivity. Qed.

Example after_last_version :
  Py.rsplit1_last "nerdctl version 1.7.6" " " = "1.7.6".
Proof. reflexivity. Qed.

Example parse_rc :
  LooseVersion.parse "1.0rc2" =
  [LooseVersion.CInt 1; LooseVersion.CInt 0; LooseVersion.CStr "rc";
   LooseVersion.CInt 2].
Proof. reflexivity. Qed.

Example ge_old : LooseVersion.ge "0.20.0" "0.22.2" = LooseVersion.Is false.
Proof. reflexivity. Qed.

Example ge_same : LooseVersion.ge "0.22.2" "0.22.2" = LooseVersion.Is true.
Proof. reflexivity. Qed.

Example ge_mixed :
  LooseVersion.ge "1.x" "1.0" = LooseVersion.RaisesTypeError.
Proof. reflexivity. Qed.

(** The empty string is no version: the object has no [version]. *)
Example ge_empty :
  LooseVersion.ge EmptyString "0.22.2" = LooseVersion.RaisesAttributeError
  /\ LooseVersion.ge "." "0.22.2" = LooseVersion.Is false.
Proof. split; reflexivity. Qed.

(** A run of 4300 digits is a number, a run of 4301 digits stays a
    string. *)
Example ge_long_number :
  LooseVersion.ge (times 4300 "1") "0.22.2" = LooseVersion.Is true
  /\ LooseVersion.ge (times 4301 "1") "0.22.2" = LooseVersion.RaisesTypeError
  /\ LooseVersion.ge (times 4301 "0" +:+ ".1") "0.22.2"
     = LooseVersion.RaisesTypeError
  /\ LooseVersion.ge ("1." +:+ times 4301 "1") "0.22.2" = LooseVersion.Is true.
Proof. repeat split; vm_compute; reflexivity. Qed.

Example parse_newline :
  LooseVersion.parse ("1.7.6" +:+ Py.nl) =
  [LooseVersion.CInt 1; LooseVersion.CInt 7; LooseVersion.CInt 6;
   LooseVersion.CStr Py.nl].
Proof. reflexivity. Qed.

Example parse_other_runs :
  LooseVersion.parse "A1--b.C" =
  [LooseVersion.CStr "A"; LooseVersion.CInt 1; LooseVersion.CStr "--";
   LooseVersion.CStr "b"; LooseVersion.CStr "C"].
Proof. reflexivity. Qed.

Example split_tail_trailing_slash : posixpath.split_tail "/bin/bash/" = EmptyString.
Proof. reflexivity. Qed.

Example join_examples :
  posixpath.join "/a/" "x" = "/a/x" /\ posixpath.join "a" "x" = "a/x"
  /\ posixpath.join EmptyString "x" = "x" /\ posixpath.join "a" "/x" = "/x".
Proof. repeat split; reflexivity. Qed.

(** * Properties *)

(** ** Strings *)

Section StringFacts.

Lemma append_nil_l (b : string) : EmptyString +:+ b = b.
Proof. reflexivity. Qed.

Lemma append_cons (c : ascii) (a b : string) :
  String c a +:+ b = String c (a +:+ b).
Proof. reflexivity. Qed.

Lemma append_nil_r (s : string) : s +:+ EmptyString = s.
Proof.
  induction s as [|c s IH]; [reflexivity|].
  now rewrite append_cons, IH.
Qed.

Lemma append_assoc (a b c : string) : (a +:+ b) +:+ c = a +:+ (b +:+ c).
Proof.
  induction a as [|x a IH]; [reflexivity|].
  now rewrite !append_cons, IH.
Qed.

Lemma contains_app (c : ascii) (a b : string) :
  Py.contains c (a +:+ b) = Py.contains c a || Py.contains c b.
Proof.
  induction a as [|x a IH]; [reflexivity|].
  rewrite append_cons. simpl. rewrite IH. now rewrite orb_assoc.
Qed.

(** [replace] works character by character, so it distributes over
    concatenation. *)
Lemma replace_app (a b : string) (old : ascii) (new : string) :
  Py.replace (a +:+ b) old new
  = Py.replace a old new +:+ Py.replace b old new.
Proof.
  induction a as [|x a IH]; [reflexivity|].
  rewrite append_cons. simpl. rewrite IH. now rewrite append_assoc.
Qed.

Lemma replace_absent (s : string) (old : ascii) (new : string) :
  Py.contains old s = false -> Py.replace s old new = s.
Proof.
  induction s as [|x s IH]; simpl; [reflexivity|].
  intros H. apply orb_false_iff in H as [Hx Hs].
  rewrite Hx, (IH Hs). reflexivity.
Qed.

Lemma replace_single (old : ascii) (new : string) :
  Py.replace (String old EmptyString) old new = new.
Proof. simpl. rewrite Ascii.eqb_refl. apply append_nil_r. Qed.

(** The text after the last separator holds no separator, and what
    precedes it is empty or ends with the separator. *)
Lemma after_last_no_sep (sep : ascii) (s : string) :
  Py.contains sep (Py.after_last sep s) = false.
Proof.
  induction s as [|x s IH]; simpl; [reflexivity|].
  destruct (Py.contains sep s) eqn:Hs; [exact IH|].
  destruct (Ascii.eqb x sep) eqn:Hx; [exact Hs|].
  simpl. now rewrite Hx, Hs.
Qed.

Lemma after_last_split (sep : ascii) (s : string) :
  exists head : string,
    s = head +:+ Py.after_last sep s
    /\ (head = EmptyString
        \/ exists head', head = head' +:+ String sep EmptyString).
Proof.
  induction s as [|x s IH]; simpl.
  - exists EmptyString. split; [reflexivity | now left].
  - destruct (Py.contains sep s) eqn:Hs.
    + destruct IH as (head & Heq & Hhead).
      exists (String x head). split; [rewrite append_cons; now rewrite <- Heq|].
      right. destruct Hhead as [-> | (head' & ->)].
      * (* [s] would be its own tail, without a separator *)
        rewrite append_nil_l in Heq. rewrite Heq in Hs.
        now rewrite after_last_no_sep in Hs.
      * exists (String x head'). reflexivity.
    + destruct (Ascii.eqb x sep) eqn:Hx.
      * apply Ascii.eqb_eq in Hx as ->.
        exists (String sep EmptyString). split; [reflexivity|].
        right. exists EmptyString. reflexivity.
      * exists EmptyString. split; [reflexivity | now left].
Qed.

Lemma after_last_absent (sep : ascii) (s : string) :
  Py.contains sep s = false -> Py.after_last sep s = s.
Proof.
  destruct s as [|x s]; simpl; [reflexivity|].
  intros H. apply orb_false_iff in H as [Hx Hs]. now rewrite Hs, Hx.
Qed.

End StringFacts.

(** ** Digests and cache paths *)

Section DigestFacts.

Lemma hexchar_hex (n : N) : In (hashlib.hexchar n) hashlib.hexchars.
Proof.
  unfold hashlib.hexchar.
  destruct (nth_in_or_default (N.to_nat n) hashlib.hexchars "0"%char)
    as [H | ->]; [exact H | simpl; tauto].
Qed.

Lemma hexchar_not_slash (n : N) : Ascii.eqb (hashlib.hexchar n) "/" = false.
Proof.
  pose proof (hexchar_hex n) as H. simpl in H.
  repeat (destruct H as [<- | H]; [reflexivity|]). destruct H.
Qed.

Lemma hex_length (bytes : list N) :
  String.length (hashlib.hex bytes) = (2 * length bytes)%nat.
Proof. induction bytes as [|b l IH]; simpl; [reflexivity | rewrite IH; lia]. Qed.

Lemma hex_no_slash (bytes : list N) :
  Py.contains "/" (hashlib.hex bytes) = false.
Proof.
  induction bytes as [|b l IH]; simpl; [reflexivity|].
  now rewrite !hexchar_not_slash, IH.
Qed.

(** A digest is 32 characters long and holds no path separator. *)
Lemma md5_hexdigest_length (s : string) :
  String.length (hashlib.md5_hexdigest s) = 32%nat.
Proof.
  unfold hashlib.md5_hexdigest, hashlib.md5_digest. rewrite hex_length.
  destruct (fold_left hashlib.compress _ hashlib.init) as [[[a b] c] d].
  reflexivity.
Qed.

Lemma md5_hexdigest_no_slash (s : string) :
  Py.contains "/" (hashlib.md5_hexdigest s) = false.
Proof. apply hex_no_slash. Qed.

Lemma startswith_contains (c : ascii) (s : string) :
  Py.contains c s = false -> Py.startswith s (String c EmptyString) = false.
Proof.
  destruct s as [|x s]; [reflexivity|]. simpl. intros H.
  apply orb_false_iff in H as [Hx _].
  destruct (ascii_dec c x) as [->|]; [|reflexivity].
  now rewrite Ascii.eqb_refl in Hx.
Qed.

(** Joining a directory with a digest keeps the directory. *)
Lemma join_digest (dir u : string) :
  posixpath.join dir (hashlib.md5_hexdigest u)
  = dir +:+ join_sep dir +:+ hashlib.md5_hexdigest u.
Proof.
  unfold posixpath.join, join_sep.
  rewrite (startswith_contains _ _ (md5_hexdigest_no_slash u)).
  destruct (negb (Py.truthy dir) || posixpath.endswith_slash dir);
    reflexivity.
Qed.

End DigestFacts.

(** ** Running the monad *)

Section MonadFacts.

Context {A B : Type}.

Lemma bind_ok (m : M A) (k : A -> M B) (h : Host) (s s' : State)
    (t : list event) (a : A) :
  m h s = mkOutcome t s' (inr a) ->
  bind m k h s
  = mkOutcome (t ++ events (k a h s')) (final (k a h s'))
      (result (k a h s')).
Proof. intros H. unfold bind. rewrite H. now destruct (k a h s'). Qed.

Lemma bind_raise (m : M A) (k : A -> M B) (h : Host) (s s' : State)
    (t : list event) (e : exn) :
  m h s = mkOutcome t s' (inl e) ->
  bind m k h s = mkOutcome t s' (inl e).
Proof. intros H. unfold bind. now rewrite H. Qed.

Lemma outcome_eta (o : Outcome A) :
  o = mkOutcome (events o) (final o) (result o).
Proof. now destruct o. Qed.

End MonadFacts.

(** ** The singleton *)

Section DockerFacts.

Lemma Docker_call_outcome (h : Host) (s : State) :
  Docker.__call__ h s
  = mkOutcome []
      {| instance := Some (singleton_loc s);
         heap := <[singleton_loc s := ODocker fresh_docker]> (heap s) |}
      (inr (singleton_loc s)).
Proof.
  destruct s as [[inst|] hp];
    cbv [Docker.__call__ Docker.__new__ Docker.__init__ store alloc
           singleton_loc bind get put ret events final result instance
           heap app].
  - reflexivity.
  - now rewrite insert_insert_eq.
Qed.

End DockerFacts.

Section CheckFacts.

Lemma docker_at_outcome (h : Host) (s : State) (l : loc) (d : DockerObj) :
  heap s !! l = Some (ODocker d) ->
  docker_at l h s = mkOutcome [] s (inr d).
Proof. intros Hl. cbv [docker_at bind get ret app]. now rewrite Hl. Qed.

(** The four ways in which [check] can end: nothing to do or no such
    object; the CLI is not found; the probe ran and [check] failed; the
    probe ran and its version is recorded. *)
Lemma check_cases (h : Host) (s : State) (l : loc) :
  let o := Docker.check l h s in
  (events o = [] /\ final o = s /\
     (result o = inl AttributeError
      \/ (result o = inr tt /\
          exists d, heap s !! l = Some (ODocker d) /\ checked d = true)))
  \/ (exists e, o = mkOutcome [Which "nerdctl"] s (inl e))
  \/ (exists e, o = mkOutcome [Which "nerdctl"; probe] s (inl e))
  \/ (exists d v,
        heap s !! l = Some (ODocker d) /\ checked d = false /\
        o = mkOutcome [Which "nerdctl"; probe]
              {| instance := instance s;
                 heap := <[l := ODocker {| checked := false;
                                           _version := Some v |}]> (heap s) |}
              (inr tt)).
Proof.
  cbv [Docker.check docker_at Docker.require_version shutil_which
    subprocess_check_output store bind get put ret raise emit ask
    events final result app].
  destruct (heap s !! l) as [[d|i]|] eqn:Hl.
  2,3: left; auto.
  destruct (checked d) eqn:Hc; cbv [negb].
  { left. repeat split; auto. right. split; auto. exists d. auto. }
  destruct (Py.truthy_opt (which h "nerdctl")) eqn:Hw; cbv [negb].
  2: { right. left. eexists. reflexivity. }
  destruct (check_output h ["nerdctl"; "--version"] None)
    as [out|out err] eqn:Ho.
  2: { right. right. left. eexists. reflexivity. }
  right. right.
  destruct (Py.startswith out "apptainer");
    destruct (LooseVersion.ge _ _) as [[|]| |];
    try (left; eexists; reflexivity).
  all: right; rewrite Hl; exists d; eexists; rewrite Hc;
    repeat split; reflexivity.
Qed.

End CheckFacts.

(** ** Images *)

Section ImageFacts.

Lemma state_eta (s : State) :
  {| instance := instance s; heap := heap s |} = s.
Proof. now destruct s. Qed.

Lemma memoized_ok (i : ImageObj) : memo_ok (memoized i).
Proof. now right. Qed.

Lemma memoized_fixed (i : ImageObj) :
  _hash i = Some (hashlib.md5_hexdigest (url i)) -> memoized i = i.
Proof. destruct i; unfold memoized; simpl. now intros ->. Qed.

Lemma settle_fixed (s : State) (l : loc) (i : ImageObj) :
  heap s !! l = Some (OImage i) ->
  _hash i = Some (hashlib.md5_hexdigest (url i)) ->
  settle s l i = s.
Proof.
  intros Hl Hm. unfold settle. rewrite (memoized_fixed _ Hm).
  rewrite (insert_id _ _ _ Hl). apply state_eta.
Qed.

Lemma settle_lookup (s : State) (l : loc) (i : ImageObj) :
  heap (settle s l i) !! l = Some (OImage (memoized i)).
Proof. unfold settle; cbn [heap]. apply lookup_insert_eq. Qed.

Lemma settle_settle (s : State) (l : loc) (i : ImageObj) :
  settle (settle s l i) l (memoized i) = settle s l i.
Proof.
  apply settle_fixed; [apply settle_lookup | reflexivity].
Qed.

Lemma image_at_outcome (h : Host) (s : State) (l : loc) (i : ImageObj) :
  heap s !! l = Some (OImage i) ->
  image_at l h s = mkOutcome [] s (inr i).
Proof. intros Hl. cbv [image_at bind get ret app]. now rewrite Hl. Qed.

Lemma is_local_outcome (h : Host) (s : State) (l : loc) (i : ImageObj) :
  heap s !! l = Some (OImage i) ->
  Image.is_local l h s = mkOutcome [] s (inr (is_local_file h (url i))).
Proof.
  intros Hl. cbv [Image.is_local bind].
  rewrite (image_at_outcome h s l i Hl). reflexivity.
Qed.

(** The lazy property returns the digest of the URL, on the first
    access and on every later one. *)
Lemma hash_outcome (h : Host) (s : State) (l : loc) (i : ImageObj) :
  heap s !! l = Some (OImage i) -> memo_ok i ->
  Image.hash l h s
  = mkOutcome [] (settle s l i) (inr (hashlib.md5_hexdigest (url i))).
Proof.
  intros Hl Hm. cbv [Image.hash Image.lazy_property bind].
  rewrite (image_at_outcome h s l i Hl). cbv beta iota.
  destruct Hm as [Hm | Hm]; rewrite Hm.
  - reflexivity.
  - rewrite (settle_fixed _ _ _ Hl Hm). reflexivity.
Qed.

Lemma path_outcome (h : Host) (s : State) (l : loc) (i : ImageObj) :
  heap s !! l = Some (OImage i) -> memo_ok i ->
  Image.path l h s
  = if is_local_file h (url i)
    then mkOutcome [] s (inr (uri_path (parse_uri h (url i))))
    else mkOutcome [] (settle s l i)
           (inr (posixpath.join (_img_dir i)
                   (hashlib.md5_hexdigest (url i)) +:+ ".simg")).
Proof.
  intros Hl Hm. cbv [Image.path bind].
  rewrite (is_local_outcome h s l i Hl). cbv beta iota.
  destruct (is_local_file h (url i));
    rewrite (image_at_outcome h s l i Hl); cbv beta iota.
  - reflexivity.
  - rewrite (hash_outcome h s l i Hl Hm). reflexivity.
Qed.

End ImageFacts.

(** ** Properties of the state that computations keep *)

Section Preservation.

Variable P : State -> Prop.

Lemma preserves_ret {A : Type} (a : A) : preserves P (ret a).
Proof. intros h s H. exact H. Qed.

Lemma preserves_raise {A : Type} (e : exn) : preserves P (@raise A e).
Proof. intros h s H. exact H. Qed.

Lemma preserves_emit (e : event) : preserves P (emit e).
Proof. intros h s H. exact H. Qed.

Lemma preserves_ask : preserves P ask.
Proof. intros h s H. exact H. Qed.

Lemma preserves_get : preserves P get.
Proof. intros h s H. exact H. Qed.

Lemma preserves_bind {A B : Type} (m : M A) (k : A -> M B) :
  preserves P m -> (forall a, preserves P (k a)) -> preserves P (bind m k).
Proof.
  intros Hm Hk h s H. specialize (Hm h s H). unfold bind.
  destruct (m h s) as [t s' [e | a]]; [exact Hm|].
  specialize (Hk a h s' Hm). now destruct (k a h s').
Qed.

Lemma preserves_void {A : Type} (m : M A) :
  preserves P m -> preserves P (void m).
Proof.
  intros Hm. apply preserves_bind; [exact Hm | intros; apply preserves_ret].
Qed.

Lemma preserves_image_at (l : loc) : preserves P (image_at l).
Proof.
  apply preserves_bind; [apply preserves_get|]. intros s.
  destruct (heap s !! l) as [[d|i]|];
    first [apply preserves_ret | apply preserves_raise].
Qed.

Lemma preserves_docker_at (l : loc) : preserves P (docker_at l).
Proof.
  apply preserves_bind; [apply preserves_get|]. intros s.
  destruct (heap s !! l) as [[d|i]|];
    first [apply preserves_ret | apply preserves_raise].
Qed.

Lemma preserves_check_output (argv : list string) (cwd : option string) :
  preserves P (subprocess_check_output argv cwd).
Proof.
  apply preserves_bind; [apply preserves_emit|]. intros _.
  apply preserves_bind; [apply preserves_ask|]. intros h.
  apply preserves_ret.
Qed.

Lemma preserves_exists (p : string) : preserves P (os_path_exists p).
Proof.
  apply preserves_bind; [apply preserves_emit|]. intros _.
  apply preserves_bind; [apply preserves_ask|]. intros h.
  apply preserves_ret.
Qed.

Lemma preserves_version (l : loc) : preserves P (Docker.version l).
Proof.
  apply preserves_bind; [apply preserves_docker_at|]. intros d.
  destruct (_version d); [apply preserves_ret | apply preserves_raise].
Qed.

Lemma preserves_is_local (l : loc) : preserves P (Image.is_local l).
Proof.
  apply preserves_bind; [apply preserves_image_at|]. intros i.
  apply preserves_bind; [apply preserves_ask|]. intros h.
  apply preserves_ret.
Qed.

Lemma preserves_eq (l l' : loc) : preserves P (Image.__eq__ l l').
Proof.
  apply preserves_bind; [apply preserves_image_at|]. intros a.
  apply preserves_bind; [apply preserves_image_at|]. intros b.
  apply preserves_ret.
Qed.

(** [shellcmd] writes to the log and nothing else. *)
Lemma shellcmd_state (img_path cmd : string) (args : Py.arg string)
    (quiet : Py.arg bool)
    (envvars : Py.arg (option (list (string * string))))
    (sh wd : Py.arg (option string)) (py : Py.arg bool)
    (h : Host) (s : State) :
  final (shellcmd img_path cmd args quiet envvars sh wd py h s) = s.
Proof.
  cbv [shellcmd logger_debug bind emit ask].
  destruct (Py.or_default (Some "None") wd) as [[|x w]|]; reflexivity.
Qed.

(** The operations that write to the heap. *)
Hypothesis P_Docker : preserves P Docker.__call__.
Hypothesis P_check : forall l, preserves P (Docker.check l).
Hypothesis P_hash : forall l, preserves P (Image.hash l).
Hypothesis P_Image : forall u dag c, preserves P (Image.__init__ u dag c).

Lemma preserves_path (l : loc) : preserves P (Image.path l).
Proof.
  apply preserves_bind; [apply preserves_is_local|]. intros [|].
  - apply preserves_bind; [apply preserves_image_at|]. intros i.
    apply preserves_bind; [apply preserves_ask|]. intros h.
    apply preserves_ret.
  - apply preserves_bind; [apply preserves_image_at|]. intros i.
    apply preserves_bind; [apply P_hash|]. intros digest.
    apply preserves_ret.
Qed.

Lemma preserves_pull (l : loc) (dryrun : Py.arg bool) :
  preserves P (Image.pull l dryrun).
Proof.
  unfold Image.pull.
  apply preserves_bind; [apply preserves_image_at|]. intros i.
  apply preserves_bind; [apply P_check|]. intros _.
  apply preserves_bind; [apply preserves_is_local|]. intros [|].
  { apply preserves_ret. }
  destruct (Py.or_default false dryrun).
  { apply preserves_emit. }
  apply preserves_bind; [apply preserves_path|]. intros p.
  apply preserves_bind; [apply preserves_emit|]. intros _.
  apply preserves_bind; [apply preserves_path|]. intros p'.
  apply preserves_bind; [apply preserves_exists|]. intros [|].
  { apply preserves_ret. }
  cbn [negb].
  apply preserves_bind; [apply preserves_emit|]. intros _.
  apply preserves_bind; [apply preserves_emit|]. intros _.
  apply preserves_bind; [apply preserves_check_output|].
  intros [out|out err]; [apply preserves_ret | apply preserves_raise].
Qed.

Lemma preserves_dunder_hash (l : loc) : preserves P (Image.__hash__ l).
Proof.
  apply preserves_bind; [apply P_hash|]. intros digest.
  apply preserves_bind; [apply preserves_ask|]. intros h.
  apply preserves_ret.
Qed.

Lemma preserves_call (o : op) : preserves P (call o).
Proof.
  destruct o; cbn [call];
    try (apply preserves_void);
    auto using preserves_version, preserves_is_local, preserves_pull,
      preserves_path, preserves_dunder_hash, preserves_eq.
  intros h s H. now rewrite shellcmd_state.
Qed.

Lemma preserves_run_calls (calls : list (op * Host)) (s : State) :
  P s -> P (run_calls calls s).
Proof.
  revert s. induction calls as [| [o h] calls IH]; intros s H; [exact H|].
  cbn [run_calls]. apply IH. now apply preserves_call.
Qed.

Lemma preserves_reachable (s : State) : P initial -> reachable s -> P s.
Proof.
  intros H0. induction 1 as [| s o h _ IH]; [exact H0|].
  now apply preserves_call.
Qed.

End Preservation.

(** ** The invariant of the process *)

Section Invariant.

Lemma invariant_initial : invariant initial.
Proof.
  split; cbn [initial heap instance]; intros *.
  - now rewrite lookup_empty.
  - now rewrite lookup_empty.
  - discriminate.
Qed.

(** Writing an unchecked [Docker] object where no image is keeps the
    invariant. *)
Lemma invariant_store_docker (s : State) (l : loc) (v : option string) :
  invariant s ->
  (forall i, heap s !! l <> Some (OImage i)) ->
  invariant {| instance := instance s;
               heap := <[l := ODocker {| checked := false;
                                         _version := v |}]> (heap s) |}.
Proof.
  intros [Hi Hu Hs] Hl. split; cbn [heap instance].
  - intros l' i. destruct (decide (l = l')) as [<- | Hne].
    + rewrite lookup_insert_eq. discriminate.
    + rewrite lookup_insert_ne by exact Hne. apply Hi.
  - intros l' d. destruct (decide (l = l')) as [<- | Hne].
    + rewrite lookup_insert_eq. now intros [= <-].
    + rewrite lookup_insert_ne by exact Hne. apply Hu.
  - intros inst Hinst. destruct (decide (l = inst)) as [<- | Hne].
    + rewrite lookup_insert_eq. eauto.
    + rewrite lookup_insert_ne by exact Hne. now apply Hs.
Qed.

Lemma fresh_unused (s : State) : heap s !! fresh (dom (heap s)) = None.
Proof. apply not_elem_of_dom. apply is_fresh. Qed.

Lemma singleton_loc_no_image (s : State) (i : ImageObj) :
  invariant s -> heap s !! singleton_loc s <> Some (OImage i).
Proof.
  intros [_ _ Hs]. unfold singleton_loc.
  destruct (instance s) as [inst|] eqn:Hinst.
  - destruct (Hs inst eq_refl) as [d ->]. discriminate.
  - rewrite fresh_unused. discriminate.
Qed.

Lemma invariant_Docker_call : preserves invariant Docker.__call__.
Proof.
  intros h s H. rewrite Docker_call_outcome. cbn [final].
  pose proof (invariant_store_docker s (singleton_loc s) None H
                (fun i => singleton_loc_no_image s i H)) as [Hi Hu Hs].
  split; cbn [heap instance] in *.
  - intros l i Hl. destruct (Hi l i Hl) as [Hm Hinst]. split; [exact Hm|].
    unfold singleton_loc. now rewrite Hinst.
  - exact Hu.
  - intros inst [= <-]. rewrite lookup_insert_eq. eauto.
Qed.

Lemma invariant_check (l : loc) : preserves invariant (Docker.check l).
Proof.
  intros h s H.
  destruct (check_cases h s l)
    as [(_ & -> & _) | [[e ->] | [[e ->] | (d & v & Hl & _ & ->)]]];
    try exact H.
  cbn [final]. apply invariant_store_docker; [exact H|].
  intros i. rewrite Hl. discriminate.
Qed.

Lemma invariant_settle (s : State) (l : loc) (i : ImageObj) :
  invariant s -> heap s !! l = Some (OImage i) -> invariant (settle s l i).
Proof.
  intros [Hi Hu Hs] Hl. split; unfold settle; cbn [heap instance].
  - intros l' i'. destruct (decide (l = l')) as [<- | Hne].
    + rewrite lookup_insert_eq. intros [= <-].
      split; [apply memoized_ok | apply (Hi l i Hl)].
    + rewrite lookup_insert_ne by exact Hne. apply Hi.
  - intros l' d. destruct (decide (l = l')) as [<- | Hne].
    + rewrite lookup_insert_eq. discriminate.
    + rewrite lookup_insert_ne by exact Hne. apply Hu.
  - intros inst Hinst. destruct (Hs inst Hinst) as [d Hd].
    exists d. rewrite lookup_insert_ne; [exact Hd|].
    intros <-. rewrite Hl in Hd. discriminate.
Qed.

Lemma hash_no_image (h : Host) (s : State) (l : loc) :
  (forall i, heap s !! l <> Some (OImage i)) ->
  Image.hash l h s = mkOutcome [] s (inl AttributeError).
Proof.
  intros Hl. cbv [Image.hash Image.lazy_property image_at bind get raise].
  destruct (heap s !! l) as [[d|i]|]; [reflexivity | | reflexivity].
  now destruct (Hl i).
Qed.

Lemma invariant_hash (l : loc) : preserves invariant (Image.hash l).
Proof.
  intros h s H. destruct (heap s !! l) as [[d|i]|] eqn:Hl.
  2: { rewrite (hash_outcome h s l i Hl (proj1 (inv_images s H l i Hl))).
       now apply invariant_settle. }
  all: rewrite hash_no_image; [exact H | intros i; rewrite Hl; discriminate].
Qed.

(** Allocation never reuses a location. *)
Lemma alloc_outcome (h : Host) (s : State) (o : object) :
  alloc o h s
  = mkOutcome []
      {| instance := instance s;
         heap := <[fresh (dom (heap s)) := o]> (heap s) |}
      (inr (fresh (dom (heap s)))).
Proof. reflexivity. Qed.

Lemma Image_init_outcome (h : Host) (s : State) (u : string) (dag : DAG)
    (c : bool) :
  Py.contains " " u = false ->
  let s1 := {| instance := Some (singleton_loc s);
               heap := <[singleton_loc s := ODocker fresh_docker]> (heap s) |} in
  let i := {| singularity := singleton_loc s; url := u;
              _img_dir := container_img_path (persistence (workflow dag));
              is_containerized := c; _hash := None |} in
  Image.__init__ u dag c h s
  = mkOutcome []
      {| instance := Some (singleton_loc s);
         heap := <[fresh (dom (heap s1)) := OImage i]> (heap s1) |}
      (inr (fresh (dom (heap s1)))).
Proof.
  intros Hu. cbv zeta. unfold Image.__init__. rewrite Hu. unfold bind.
  rewrite Docker_call_outcome. rewrite alloc_outcome. reflexivity.
Qed.

Lemma Image_init_rejected (h : Host) (s : State) (u : string) (dag : DAG)
    (c : bool) :
  Py.contains " " u = true ->
  Image.__init__ u dag c h s
  = mkOutcome [] s
      (inl (WorkflowError "Invalid docker image URL containing whitespace.")).
Proof. intros Hu. unfold Image.__init__. now rewrite Hu. Qed.

Lemma invariant_Image_init (u : string) (dag : DAG) (c : bool) :
  preserves invariant (Image.__init__ u dag c).
Proof.
  intros h s H. destruct (Py.contains " " u) eqn:Hu.
  { now rewrite Image_init_rejected. }
  rewrite (Image_init_outcome h s u dag c Hu). cbn [final].
  pose proof (invariant_Docker_call h s H) as H1.
  rewrite Docker_call_outcome in H1. cbn [final] in H1.
  set (s1 := {| instance := Some (singleton_loc s);
                heap := <[singleton_loc s := ODocker fresh_docker]> (heap s) |})
    in *.
  pose proof (fresh_unused s1) as Hfresh.
  destruct H1 as [Hi Hu1 Hs]. split; cbn [heap instance].
  - intros l i. destruct (decide (fresh (dom (heap s1)) = l)) as [<- | Hne].
    + rewrite lookup_insert_eq. intros [= <-]. split; [now left | reflexivity].
    + rewrite lookup_insert_ne by exact Hne. apply Hi.
  - intros l d. destruct (decide (fresh (dom (heap s1)) = l)) as [<- | Hne].
    + rewrite lookup_insert_eq. discriminate.
    + rewrite lookup_insert_ne by exact Hne. apply Hu1.
  - intros inst Hinst. destruct (Hs inst Hinst) as [d Hd]. exists d.
    rewrite lookup_insert_ne; [exact Hd|].
    intros <-. rewrite Hfresh in Hd. discriminate.
Qed.

(** Every state of a process satisfies the invariant. *)
Lemma reachable_invariant (s : State) : reachable s -> invariant s.
Proof.
  apply preserves_reachable;
    auto using invariant_Docker_call, invariant_check, invariant_hash,
      invariant_Image_init, invariant_initial.
Qed.

Lemma invariant_run_calls (calls : list (op * Host)) (s : State) :
  invariant s -> invariant (run_calls calls s).
Proof.
  apply preserves_run_calls;
    auto using invariant_Docker_call, invariant_check, invariant_hash,
      invariant_Image_init.
Qed.

Lemma reachable_run_calls (calls : list (op * Host)) (s : State) :
  reachable s -> reachable (run_calls calls s).
Proof.
  revert s. induction calls as [| [o h] calls IH]; intros s H; [exact H|].
  cbn [run_calls]. apply IH. now constructor.
Qed.

End Invariant.

(** ** The class attribute, once set, stays *)

Section InstanceStays.

Variable inst : loc.

Lemma stays_Docker_call : preserves (instance_is inst) Docker.__call__.
Proof.
  intros h s H. rewrite Docker_call_outcome. unfold instance_is, singleton_loc.
  cbn [final instance]. now rewrite H.
Qed.

Lemma stays_check (l : loc) : preserves (instance_is inst) (Docker.check l).
Proof.
  intros h s H.
  destruct (check_cases h s l)
    as [(_ & -> & _) | [[e ->] | [[e ->] | (d & v & _ & _ & ->)]]];
    exact H.
Qed.

Lemma stays_hash (l : loc) : preserves (instance_is inst) (Image.hash l).
Proof.
  intros h s H. cbv [Image.hash Image.lazy_property image_at store bind get put
                       ret raise].
  destruct (heap s !! l) as [[d|i]|]; try exact H.
  destruct (_hash i); exact H.
Qed.

Lemma stays_Image_init (u : string) (dag : DAG) (c : bool) :
  preserves (instance_is inst) (Image.__init__ u dag c).
Proof.
  intros h s H. destruct (Py.contains " " u) eqn:Hu.
  - now rewrite Image_init_rejected.
  - rewrite (Image_init_outcome h s u dag c Hu).
    unfold instance_is, singleton_loc. cbn [final instance]. now rewrite H.
Qed.

Lemma instance_stays (calls : list (op * Host)) (s : State) :
  instance s = Some inst -> instance (run_calls calls s) = Some inst.
Proof.
  apply (preserves_run_calls (instance_is inst));
    auto using stays_Docker_call, stays_check, stays_hash, stays_Image_init.
Qed.

End InstanceStays.

(** ** The command line *)

Section Shellcmd.

Variables (img_path cmd : string) (args : Py.arg string) (quiet : Py.arg bool)
  (envvars : Py.arg (option (list (string * string)))) (py : Py.arg bool).

(** The value of [shellcmd], for all arguments. *)
Lemma shellcmd_value (sh wd : Py.arg (option string)) (h : Host) (s : State) :
  result (shellcmd img_path cmd args quiet envvars sh wd py h s)
  = inr (env_prefix envvars +:+ " nerdctl run --rm  "
         +:+ final_args h args wd py +:+ " " +:+ img_path +:+ " "
         +:+ shell_name sh +:+ " -c '" +:+ escaped cmd +:+ "'").
Proof.
  cbv [shellcmd logger_debug bind emit ask ret result Py.or_default
         env_prefix bind_args final_args workdir_flags escaped shell_name].
  destruct wd as [|[[|c d]|]], py as [|[|]], args, envvars as [|[[|]|]],
    sh as [|[|]];
    cbv beta iota; rewrite ?append_assoc, ?append_nil_r; reflexivity.
Qed.

(** What [shellcmd] logs: the arguments, the working directory or its
    absence, and the command line. *)
Lemma shellcmd_events (sh wd : Py.arg (option string)) (h : Host) (s : State) :
  exists a b c,
    events (shellcmd img_path cmd args quiet envvars sh wd py h s)
    = [Log DEBUG (Text a); Log DEBUG (Text b); Log DEBUG (Text c)]
    /\ result (shellcmd img_path cmd args quiet envvars sh wd py h s) = inr c.
Proof.
  cbv [shellcmd logger_debug bind emit ask ret result events].
  destruct (Py.or_default (Some "None") wd) as [[|c d]|];
    do 3 eexists; split; reflexivity.
Qed.

End Shellcmd.

(** C10: when [shell_executable] is left out or is [None], the shell in
    the command line is [sh]; when a path is passed, the command line
    holds the text after its last slash and nothing else of it: the path
    is a head that is empty or ends with a slash, followed by that base
    name, and the base name has no slash. *)
Theorem shellcmd_shell_executable (img_path cmd : string)
    (args : Py.arg string) (quiet : Py.arg bool)
    (envvars : Py.arg (option (list (string * string))))
    (wd : Py.arg (option string)) (py : Py.arg bool) (h : Host) (s : State) :
  let line (sh : string) : exn + string :=
    inr (env_prefix envvars +:+ " nerdctl run --rm  "
         +:+ final_args h args wd py +:+ " " +:+ img_path +:+ " " +:+ sh
         +:+ " -c '" +:+ escaped cmd +:+ "'") in
  result (shellcmd img_path cmd args quiet envvars Py.Omitted wd py h s)
  = line "sh"
  /\ result (shellcmd img_path cmd args quiet envvars (Py.Passed None) wd py
               h s)
     = line "sh"
  /\ forall p : string,
       result (shellcmd img_path cmd args quiet envvars (Py.Passed (Some p))
                 wd py h s)
       = line (posixpath.split_tail p)
       /\ Py.contains "/" (posixpath.split_tail p) = false
       /\ exists head : string,
            p = head +:+ posixpath.split_tail p
            /\ (head = EmptyString \/ exists head', head = head' +:+ "/").
Proof.
  cbv zeta. split; [apply shellcmd_value|]. split; [apply shellcmd_value|].
  intros p. split; [apply shellcmd_value|].
  split; [apply after_last_no_sep | apply after_last_split].
Qed.

(** C3, at the call that leaves [container_workdir] out: the default of
    the parameter is the string [None], which is a working directory
    like any other, so the command line has [-w None] and the mount of
    the current directory on [/data]. *)
Theorem shellcmd_workdir_omitted (img_path cmd : string)
    (args : Py.arg string) (quiet : Py.arg bool)
    (envvars : Py.arg (option (list (string * string))))
    (sh : Py.arg (option string)) (py : Py.arg bool) (h : Host) (s : State) :
  shellcmd img_path cmd args quiet envvars sh Py.Omitted py h s
  = shellcmd img_path cmd args quiet envvars sh (Py.Passed (Some "None")) py
      h s
  /\ result (shellcmd img_path cmd args quiet envvars sh Py.Omitted py h s)
     = inr (env_prefix envvars +:+ " nerdctl run --rm  "
            +:+ (bind_args h args py +:+ " -w None -v" +:+ getcwd h
                 +:+ ":/data")
            +:+ " " +:+ img_path +:+ " " +:+ shell_name sh +:+ " -c '"
            +:+ escaped cmd +:+ "'").
Proof.
  split; [reflexivity|]. rewrite shellcmd_value. reflexivity.
Qed.

(** The two parts of C3 that hold: a working directory that is passed
    and not empty adds [-w] and the mount on [/data]; [None] and the
    empty string add nothing. *)
Lemma shellcmd_workdir_passed (img_path cmd : string)
    (args : Py.arg string) (quiet : Py.arg bool)
    (envvars : Py.arg (option (list (string * string))))
    (sh : Py.arg (option string)) (py : Py.arg bool) (h : Host) (s : State)
    (wd : option string) :
  result (shellcmd img_path cmd args quiet envvars sh (Py.Passed wd) py h s)
  = inr (env_prefix envvars +:+ " nerdctl run --rm  "
         +:+ (bind_args h args py
              +:+ if Py.truthy_opt wd
                  then " -w " +:+ default EmptyString wd +:+ " -v"
                       +:+ getcwd h +:+ ":/data"
                  else EmptyString)
         +:+ " " +:+ img_path +:+ " " +:+ shell_name sh +:+ " -c '"
         +:+ escaped cmd +:+ "'").
Proof.
  rewrite shellcmd_value. destruct wd as [[|c d]|]; reflexivity.
Qed.

(** C6, amended: every single quote of the inner command is replaced
    by the four characters ['\''], and the returned string is the form
    of the specification with one more space between [--rm] and the
    arguments, which are the given ones followed by the flags that
    [shellcmd] adds. *)
Theorem shellcmd_final_form (img_path cmd : string)
    (args : Py.arg string) (quiet : Py.arg bool)
    (envvars : Py.arg (option (list (string * string))))
    (sh wd : Py.arg (option string)) (py : Py.arg bool) (h : Host) (s : State) :
  result (shellcmd img_path cmd args quiet envvars sh wd py h s)
  = inr (env_prefix envvars +:+ " nerdctl run --rm  "
         +:+ final_args h args wd py +:+ " " +:+ img_path +:+ " "
         +:+ shell_name sh +:+ " -c '" +:+ escaped cmd +:+ "'")
  /\ result (shellcmd img_path cmd args quiet envvars sh wd py h s)
     = inr (spec_final_form (env_prefix envvars) "nerdctl"
              (" " +:+ final_args h args wd py) img_path (shell_name sh)
              (escaped cmd))
  /\ (forall a b : string,
        escaped (a +:+ "'" +:+ b) = escaped a +:+ "'\''" +:+ escaped b)
  /\ (forall a : string, Py.contains "'" a = false -> escaped a = a).
Proof.
  split; [apply shellcmd_value|]. split; [rewrite shellcmd_value; reflexivity|].
  split.
  - intros a b. unfold escaped. rewrite !replace_app.
    now rewrite (replace_single "'" "'\''").
  - intros a. apply replace_absent.
Qed.

(** C6 as it is worded fails on the space: for the arguments
    [--net host] the command line has two spaces after [--rm], the form
    of the specification one. *)
Lemma shellcmd_final_form_counterexample :
  result (shellcmd "ubuntu.simg" "echo 'hi'" (Py.Passed "--net host")
            Py.Omitted Py.Omitted Py.Omitted (Py.Passed None) Py.Omitted
            (sample_host "nerdctl version 1.7.6" (fun _ => false)) initial)
  = inr " nerdctl run --rm  --net host ubuntu.simg sh -c 'echo '\''hi'\'''"
  /\ result (shellcmd "ubuntu.simg" "echo 'hi'" (Py.Passed "--net host")
            Py.Omitted Py.Omitted Py.Omitted (Py.Passed None) Py.Omitted
            (sample_host "nerdctl version 1.7.6" (fun _ => false)) initial)
     <> inr (spec_final_form EmptyString "nerdctl" "--net host" "ubuntu.simg"
               "sh" "echo '\''hi'\''").
Proof. split; [reflexivity | discriminate]. Qed.

Lemma shellcmd_final_form_witness :
  Py.contains "'" "ls -l" = false /\ escaped "ls -l" = "ls -l".
Proof.
  split; [reflexivity|].
  apply (shellcmd_final_form "img" "c" Py.Omitted Py.Omitted Py.Omitted
           Py.Omitted Py.Omitted Py.Omitted
           (sample_host EmptyString (fun _ => false)) initial).
  reflexivity.
Defined.

Lemma shellcmd_shell_executable_witness :
  result (shellcmd "ubuntu.simg" "ls" Py.Omitted Py.Omitted Py.Omitted
            (Py.Passed (Some "/usr/local/bin/bash")) (Py.Passed None)
            Py.Omitted (sample_host EmptyString (fun _ => false)) initial)
  = inr " nerdctl run --rm   ubuntu.simg bash -c 'ls'".
Proof.
  exact (proj1 (proj2 (proj2
    (shellcmd_shell_executable "ubuntu.simg" "ls" Py.Omitted Py.Omitted
       Py.Omitted (Py.Passed None) Py.Omitted
       (sample_host EmptyString (fun _ => false)) initial))
    "/usr/local/bin/bash")).
Defined.

(** ** The singleton and its probe *)

Section CheckOutcomes.

Variables (h : Host) (s : State) (l : loc) (d : DockerObj).

Hypothesis Hl : heap s !! l = Some (ODocker d).
Hypothesis Hunchecked : checked d = false.
Hypothesis Hfound : Py.truthy_opt (which h "nerdctl") = true.

(** The outcome of [check] when the CLI is found and prints a version
    that does not start with [apptainer]. *)
Lemma check_docker_flavour (out : string) :
  check_output h ["nerdctl"; "--version"] None = Exit0 out ->
  Py.startswith out "apptainer" = false ->
  let v0 := Py.rsplit1_last out " " in
  let v := if Py.startswith v0 "v" then Py.tail1 v0 else v0 in
  Docker.check l h s
  = match LooseVersion.ge v "0.22.2" with
    | LooseVersion.Is true =>
        mkOutcome [Which "nerdctl"; probe]
          {| instance := instance s;
             heap := <[l := ODocker {| checked := false;
                                       _version := Some v |}]> (heap s) |}
          (inr tt)
    | LooseVersion.Is false =>
        mkOutcome [Which "nerdctl"; probe] s
          (inl (WorkflowError "Minimum Docker version is 0.22.2."))
    | LooseVersion.RaisesTypeError =>
        mkOutcome [Which "nerdctl"; probe] s (inl TypeError)
    | LooseVersion.RaisesAttributeError =>
        mkOutcome [Which "nerdctl"; probe] s (inl AttributeError)
    end.
Proof.
  intros Hout Happ. cbv zeta.
  cbv [Docker.check docker_at Docker.require_version shutil_which
         subprocess_check_output store bind get put ret raise emit ask app].
  rewrite Hl, Hunchecked. cbv [negb]. rewrite Hfound. cbv [negb].
  rewrite Hout, Happ.
  destruct (LooseVersion.ge _ _) as [[|]| |]; try reflexivity.
  rewrite Hl, Hunchecked. reflexivity.
Qed.

End CheckOutcomes.

Lemma version_outcome (h : Host) (s : State) (l : loc) (d : DockerObj) :
  heap s !! l = Some (ODocker d) ->
  Docker.version l h s
  = mkOutcome [] s
      match _version d with
      | Some v => inr v
      | None =>
          inl (AssertionError
                 "bug: Docker version accessed before check() has been called")
      end.
Proof.
  intros Hl. cbv [Docker.version bind].
  rewrite (docker_at_outcome h s l d Hl). cbv beta iota.
  now destruct (_version d).
Qed.

(** C5: when the CLI is found and prints a version that does not start
    with [apptainer], [check] takes the text after the last space, drops
    a leading [v] and compares with [0.22.2] as [LooseVersion] does: it
    succeeds exactly when the comparison holds, and [version] then
    returns the stripped text; it raises the error of a version that is
    too old when the comparison fails, and passes on the [TypeError] or
    the [AttributeError] (empty text) of a comparison that cannot be
    made.  For the output [0.20.0] it fails with the error of a version
    that is too old; for [v0.22.2] it succeeds and [version] returns
    [0.22.2]. *)
Theorem check_minimum_version (h : Host) (s : State) (l : loc)
    (d : DockerObj) (out : string) :
  heap s !! l = Some (ODocker d) ->
  checked d = false ->
  Py.truthy_opt (which h "nerdctl") = true ->
  check_output h ["nerdctl"; "--version"] None = Exit0 out ->
  Py.startswith out "apptainer" = false ->
  let v0 := Py.rsplit1_last out " " in
  let v := if Py.startswith v0 "v" then Py.tail1 v0 else v0 in
  let o := Docker.check l h s in
  (result o = inr tt <-> LooseVersion.ge v "0.22.2" = LooseVersion.Is true)
  /\ (LooseVersion.ge v "0.22.2" = LooseVersion.Is false ->
      result o = inl (WorkflowError "Minimum Docker version is 0.22.2."))
  /\ (result o = inr tt -> result (Docker.version l h (final o)) = inr v)
  /\ result o
     = match LooseVersion.ge v "0.22.2" with
       | LooseVersion.Is true => inr tt
       | LooseVersion.Is false =>
           inl (WorkflowError "Minimum Docker version is 0.22.2.")
       | LooseVersion.RaisesTypeError => inl TypeError
       | LooseVersion.RaisesAttributeError => inl AttributeError
       end
  /\ (out = "0.20.0" ->
      result o = inl (WorkflowError "Minimum Docker version is 0.22.2."))
  /\ (out = "v0.22.2" ->
      result o = inr tt
      /\ result (Docker.version l h (final o)) = inr "0.22.2").
Proof.
  intros Hl Hc Hw Hout Happ. cbv zeta.
  pose proof (check_docker_flavour h s l d Hl Hc Hw out Hout Happ) as E.
  cbv zeta in E.
  assert (Hver : forall v,
    let s' := {| instance := instance s;
                 heap := <[l := ODocker {| checked := false;
                                           _version := Some v |}]> (heap s) |} in
    result (Docker.version l h s') = inr v).
  { intros v. cbv zeta.
    rewrite (version_outcome h _ l {| checked := false; _version := Some v |});
      [reflexivity|].
    cbn [heap]. apply lookup_insert_eq. }
  split; [|split; [|split; [|split; [|split]]]].
  - rewrite E. destruct (LooseVersion.ge _ _) as [[|]| |]; cbn [result];
      split; congruence.
  - intros Hge. rewrite E, Hge. reflexivity.
  - rewrite E. destruct (LooseVersion.ge _ _) as [[|]| |]; try discriminate.
    intros _. apply Hver.
  - rewrite E. now destruct (LooseVersion.ge _ _) as [[|]| |].
  - intros ->. rewrite E. reflexivity.
  - intros ->. rewrite E. split; [reflexivity | apply (Hver "0.22.2")].
Qed.

Lemma check_minimum_version_witness :
  let old := sample_host "0.20.0" (fun _ => false) in
  let new := sample_host "v0.22.2" (fun _ => false) in
  let s := final (Docker.__call__ new initial) in
  result (Docker.check 1%positive old s)
  = inl (WorkflowError "Minimum Docker version is 0.22.2.")
  /\ result (Docker.check 1%positive new s) = inr tt
  /\ result (Docker.version 1%positive new
               (final (Docker.check 1%positive new s)))
     = inr "0.22.2".
Proof.
  cbv zeta. split.
  - apply (check_minimum_version (sample_host "0.20.0" (fun _ => false))
             (final (Docker.__call__ (sample_host "v0.22.2" (fun _ => false))
                       initial))
             1%positive fresh_docker "0.20.0");
      reflexivity.
  - apply (check_minimum_version (sample_host "v0.22.2" (fun _ => false))
             (final (Docker.__call__ (sample_host "v0.22.2" (fun _ => false))
                       initial))
             1%positive fresh_docker "v0.22.2");
      reflexivity.
Defined.

(** ** The cache of [check] *)

(** In a state of a process, a [check] that succeeds has run the
    probe. *)
Lemma check_success_probes (h : Host) (s : State) (l : loc) :
  invariant s ->
  result (Docker.check l h s) = inr tt ->
  events (Docker.check l h s) = [Which "nerdctl"; probe]
  /\ exists d, heap (final (Docker.check l h s)) !! l = Some (ODocker d)
               /\ checked d = false.
Proof.
  intros Hinv Hok.
  destruct (check_cases h s l)
    as [(_ & _ & [Hr | (_ & d & Hl & Hc)]) | [[e E] | [[e E] | (d & v & Hl & Hc & E)]]].
  - rewrite Hr in Hok. discriminate.
  - rewrite (inv_unchecked s Hinv l d Hl) in Hc. discriminate.
  - rewrite E in Hok. discriminate.
  - rewrite E in Hok. discriminate.
  - rewrite E. cbn [events final heap]. split; [reflexivity|].
    eexists. rewrite lookup_insert_eq. split; reflexivity.
Qed.

(** C1, where the code departs from it: [check] never sets [checked],
    so in a state of a process a [check] that succeeds after a [check]
    that succeeded runs the probe once more. *)
Theorem check_probes_again (h h' : Host) (s : State) (l : loc) :
  reachable s ->
  result (Docker.check l h s) = inr tt ->
  result (Docker.check l h' (final (Docker.check l h s))) = inr tt ->
  subprocesses (events (Docker.check l h s)) = [probe]
  /\ subprocesses (events (Docker.check l h' (final (Docker.check l h s))))
     = [probe].
Proof.
  intros Hs H1 H2.
  assert (Hs' : reachable (final (Docker.check l h s)))
    by apply (reachable_call s (DockerCheck l) h Hs).
  destruct (check_success_probes h s l (reachable_invariant s Hs) H1) as [-> _].
  destruct (check_success_probes h' _ l (reachable_invariant _ Hs') H2)
    as [-> _].
  split; reflexivity.
Qed.

Lemma check_probes_again_witness :
  let h := sample_host ("nerdctl version 1.7.6" +:+ Py.nl) (fun _ => false) in
  let s := final (call NewDocker h initial) in
  subprocesses
    (events (Docker.check 1%positive h (final (Docker.check 1%positive h s))))
  = [probe].
Proof.
  cbv zeta.
  refine (proj2 (check_probes_again _ _ _ 1%positive _ _ _)).
  - apply reachable_call, reachable_initial.
  - reflexivity.
  - reflexivity.
Defined.

(** The trace of two calls in a row on a host with [nerdctl] 1.7.6. *)
Example check_twice_trace :
  let h := sample_host ("nerdctl version 1.7.6" +:+ Py.nl) (fun _ => false) in
  events ((let! d := Docker.__call__ in
           Docker.check d ;;; Docker.check d) h initial)
  = [Which "nerdctl"; probe; Which "nerdctl"; probe].
Proof. reflexivity. Qed.

(** The other ways in which [check] ends. *)
Example check_apptainer :
  let h := sample_host "apptainer version 1.1.3" (fun _ => false) in
  result ((let! d := Docker.__call__ in
           Docker.check d ;;; Docker.version d) h initial)
  = inr "1.1.3".
Proof. reflexivity. Qed.

Example check_apptainer_too_old :
  let h := sample_host "apptainer version 0.9" (fun _ => false) in
  result ((let! d := Docker.__call__ in Docker.check d) h initial)
  = inl (WorkflowError "Minimum apptainer version is 1.0.0.").
Proof. reflexivity. Qed.

Example check_version_not_comparable :
  let h := sample_host "nerdctl version unknown" (fun _ => false) in
  result ((let! d := Docker.__call__ in Docker.check d) h initial)
  = inl TypeError.
Proof. reflexivity. Qed.

Example check_empty_version :
  let bare_v := sample_host "v" (fun _ => false) in
  let no_text := sample_host "apptainer " (fun _ => false) in
  result ((let! d := Docker.__call__ in Docker.check d) bare_v initial)
  = inl AttributeError
  /\ result ((let! d := Docker.__call__ in Docker.check d) no_text initial)
     = inl AttributeError.
Proof. split; reflexivity. Qed.

Example version_before_check :
  let h := sample_host "nerdctl version 1.7.6" (fun _ => false) in
  result ((let! d := Docker.__call__ in Docker.version d) h initial)
  = inl (AssertionError
           "bug: Docker version accessed before check() has been called").
Proof. reflexivity. Qed.

(** ** One object for the class *)

Lemma fresh_differs (m : gmap loc object) (l : loc) (o : object) :
  m !! l = Some o -> fresh (dom m) <> l.
Proof.
  intros Hl E. pose proof (is_fresh (dom m)) as Hf. rewrite E in Hf.
  apply Hf. apply elem_of_dom. eauto.
Qed.

(** C9: [Docker()] returns the location kept in the class, which it
    sets on the first call and which no operation changes afterwards,
    so that every later call returns the same object; each call assigns
    [checked = False] and [_version = None] again.  Constructing an
    [Image] calls [Docker()]: afterwards the object is as new, and
    [version] fails until the next [check]. *)
Theorem Docker_singleton_is_reset (h : Host) (s : State) :
  let o := Docker.__call__ h s in
  let inst := singleton_loc s in
  result o = inr inst
  /\ events o = []
  /\ instance (final o) = Some inst
  /\ (forall prev, instance s = Some prev -> inst = prev)
  /\ heap (final o) !! inst = Some (ODocker fresh_docker)
  /\ (forall calls h',
        result (Docker.__call__ h' (run_calls calls (final o))) = inr inst)
  /\ (forall u dag c h',
        Py.contains " " u = false ->
        let s' := final (Image.__init__ u dag c h' s) in
        heap s' !! inst = Some (ODocker fresh_docker)
        /\ result (Docker.version inst h' s')
           = inl (AssertionError
                    "bug: Docker version accessed before check() has been called")).
Proof.
  cbv zeta. rewrite Docker_call_outcome. cbn [result events final instance heap].
  split; [reflexivity|]. split; [reflexivity|]. split; [reflexivity|].
  split. { intros prev Hp. unfold singleton_loc. now rewrite Hp. }
  split. { apply lookup_insert_eq. }
  split.
  - intros calls h'. rewrite Docker_call_outcome. cbn [result].
    unfold singleton_loc at 1.
    rewrite (instance_stays (singleton_loc s) calls); reflexivity.
  - intros u dag c h' Hu.
    assert (Hat : heap (final (Image.__init__ u dag c h' s)) !! singleton_loc s
                  = Some (ODocker fresh_docker)).
    { rewrite (Image_init_outcome h' s u dag c Hu). cbn [final heap].
      rewrite lookup_insert_ne; [apply lookup_insert_eq|].
      apply (fresh_differs _ _ (ODocker fresh_docker)), lookup_insert_eq. }
    split; [exact Hat|].
    rewrite (version_outcome h' _ _ fresh_docker Hat). reflexivity.
Qed.

Lemma Docker_singleton_is_reset_witness :
  let h := sample_host "nerdctl version 1.7.6" (fun _ => false) in
  let s := final ((let! d := Docker.__call__ in Docker.check d) h initial) in
  result (Docker.version 1%positive h s) = inr "1.7.6"
  /\ Py.contains " " "docker://ubuntu" = false
  /\ result (Docker.version 1%positive h
               (final (Image.__init__ "docker://ubuntu" (sample_dag "/cache")
                         false h s)))
     = inl (AssertionError
              "bug: Docker version accessed before check() has been called").
Proof.
  cbv zeta. split; [reflexivity|]. split; [reflexivity|].
  destruct (Docker_singleton_is_reset
              (sample_host "nerdctl version 1.7.6" (fun _ => false))
              (final ((let! d := Docker.__call__ in Docker.check d)
                        (sample_host "nerdctl version 1.7.6" (fun _ => false))
                        initial)))
    as (_ & _ & _ & _ & _ & _ & H).
  exact (proj2 (H "docker://ubuntu" (sample_dag "/cache") false
                  (sample_host "nerdctl version 1.7.6" (fun _ => false))
                  eq_refl)).
Defined.

(** ** Construction of an image *)

(** C4, amended: a URL with a space character is rejected at once,
    with the [WorkflowError] of an invalid URL, no event and no change
    of the state; a URL without a space character is accepted, also
    with a tab or a newline in it, and its construction starts no
    subprocess either. *)
Theorem Image_init_rejects_space (u : string) (dag : DAG) (c : bool)
    (h : Host) (s : State) :
  (Py.contains " " u = true ->
   Image.__init__ u dag c h s
   = mkOutcome [] s
       (inl (WorkflowError "Invalid docker image URL containing whitespace.")))
  /\ (Py.contains " " u = false ->
      events (Image.__init__ u dag c h s) = []
      /\ exists l i,
           result (Image.__init__ u dag c h s) = inr l
           /\ heap (final (Image.__init__ u dag c h s)) !! l = Some (OImage i)
           /\ url i = u
           /\ _img_dir i = container_img_path (persistence (workflow dag))
           /\ _hash i = None).
Proof.
  split; intros Hu.
  - now apply Image_init_rejected.
  - rewrite (Image_init_outcome h s u dag c Hu). cbn [events result final heap].
    split; [reflexivity|]. do 2 eexists. split; [reflexivity|].
    rewrite lookup_insert_eq. repeat split; reflexivity.
Qed.

Lemma Image_init_rejects_space_witness :
  Py.contains " " "docker://my image" = true
  /\ Image.__init__ "docker://my image" (sample_dag "/cache") false
       (sample_host "nerdctl version 1.7.6" (fun _ => false)) initial
     = mkOutcome [] initial
         (inl (WorkflowError "Invalid docker image URL containing whitespace.")).
Proof.
  split; [reflexivity|].
  apply (proj1 (Image_init_rejects_space "docker://my image"
                  (sample_dag "/cache") false
                  (sample_host "nerdctl version 1.7.6" (fun _ => false))
                  initial)).
  reflexivity.
Defined.

(** C4 as it is worded fails on a tab and on a newline: both URLs have
    white space, and both images are constructed. *)
Lemma Image_init_whitespace_counterexample :
  let h := sample_host "nerdctl version 1.7.6" (fun _ => false) in
  let with_tab := "docker://my" +:+ Py.tab +:+ "image" in
  let with_newline := "docker://ubuntu" +:+ Py.nl in
  has_whitespace with_tab = true
  /\ result (Image.__init__ with_tab (sample_dag "/cache") false h initial)
     = inr 2%positive
  /\ has_whitespace with_newline = true
  /\ result (Image.__init__ with_newline (sample_dag "/cache") false h initial)
     = inr 2%positive.
Proof. cbv zeta. repeat split; reflexivity. Qed.

(** ** Pulling *)

(** [check] leaves the images alone. *)
Lemma check_frame (h : Host) (s : State) (l l' : loc) (i : ImageObj) :
  heap s !! l' = Some (OImage i) ->
  heap (final (Docker.check l h s)) !! l' = Some (OImage i).
Proof.
  intros Hi.
  destruct (check_cases h s l)
    as [(_ & -> & _) | [[e ->] | [[e ->] | (d & v & Hl & _ & ->)]]];
    try exact Hi.
  cbn [final heap]. rewrite lookup_insert_ne; [exact Hi|].
  intros <-. rewrite Hl in Hi. discriminate.
Qed.

(** The subprocesses of [check]: none, or the probe. *)
Lemma check_subprocesses (h : Host) (s : State) (l : loc) :
  subprocesses (events (Docker.check l h s)) = []
  \/ subprocesses (events (Docker.check l h s)) = [probe].
Proof.
  destruct (check_cases h s l)
    as [(-> & _) | [[e ->] | [[e ->] | (d & v & _ & _ & ->)]]];
    cbn [events]; auto.
Qed.

Lemma subprocesses_app (t t' : list event) :
  subprocesses (t ++ t') = subprocesses t ++ subprocesses t'.
Proof. apply List.filter_app. Qed.

Lemma pull_tail_quiet (h : Host) (i : ImageObj) (dryrun : Py.arg bool) :
  subprocesses (pull_tail h i dryrun) = [].
Proof.
  unfold pull_tail.
  destruct (is_local_file h (url i)), (Py.or_default false dryrun);
    reflexivity.
Qed.

(** C2, amended: when the image is local, or the run is dry, or the
    image is remote and its path exists, [pull] starts no subprocess of
    its own.  Its trace is the trace of [check] followed, when [check]
    succeeded, by log records and at most one test for existence; so
    the subprocesses of [pull] are those of [check], the version probe
    or nothing, and never the [pull] subcommand.  A dry run of a remote
    image logs one record and does not test whether the path exists. *)
Theorem pull_spawns_only_the_probe (h : Host) (s : State) (self : loc)
    (i : ImageObj) (dryrun : Py.arg bool) :
  reachable s ->
  heap s !! self = Some (OImage i) ->
  is_local_file h (url i) = true
  \/ Py.or_default false dryrun = true
  \/ exists_ h (posixpath.join (_img_dir i) (hashlib.md5_hexdigest (url i))
                +:+ ".simg") = true ->
  let o := Image.pull self dryrun h s in
  let c := Docker.check (singularity i) h s in
  result o = result c
  /\ events o
     = events c
       ++ match result c with inl _ => [] | inr _ => pull_tail h i dryrun end
  /\ subprocesses (events o) = subprocesses (events c)
  /\ (subprocesses (events o) = [] \/ subprocesses (events o) = [probe]).
Proof.
  intros Hs Hi Hcase. cbv zeta.
  pose proof (proj1 (inv_images s (reachable_invariant s Hs) self i Hi)) as Hm.
  assert (E : result (Image.pull self dryrun h s)
              = result (Docker.check (singularity i) h s)
              /\ events (Image.pull self dryrun h s)
                 = events (Docker.check (singularity i) h s)
                   ++ match result (Docker.check (singularity i) h s) with
                      | inl _ => []
                      | inr _ => pull_tail h i dryrun
                      end).
  { pose proof (check_frame h s (singularity i) self i Hi) as Hi'.
    cbv [Image.pull bind]. rewrite (image_at_outcome h s self i Hi).
    cbv beta iota.
    destruct (Docker.check (singularity i) h s) as [t s1 [e | []]].
    { cbn [result events app]. now rewrite app_nil_r. }
    cbn [final result events] in *. cbn [app].
    rewrite (is_local_outcome h s1 self i Hi'). cbv beta iota.
    unfold pull_tail. destruct (is_local_file h (url i)) eqn:Hlocal.
    { split; reflexivity. }
    destruct (Py.or_default false dryrun) eqn:Hdry.
    { split; reflexivity. }
    destruct Hcase as [Hcase | [Hcase | Hcase]]; try discriminate.
    rewrite (path_outcome h s1 self i Hi' Hm), Hlocal. cbv beta iota.
    cbv [logger_debug emit].
    rewrite (path_outcome h (settle s1 self i) self (memoized i)
               (settle_lookup s1 self i) (memoized_ok i)).
    cbn [url memoized _img_dir]. rewrite Hlocal.
    cbv [os_path_exists bind emit ask ret]. rewrite Hcase.
    split; reflexivity. }
  destruct E as [Er Ee]. split; [exact Er|]. split; [exact Ee|].
  assert (Esub : subprocesses (events (Image.pull self dryrun h s))
                 = subprocesses (events (Docker.check (singularity i) h s))).
  { rewrite Ee, subprocesses_app.
    destruct (result (Docker.check (singularity i) h s));
      [|rewrite pull_tail_quiet]; apply app_nil_r. }
  split; [exact Esub|]. rewrite Esub. apply check_subprocesses.
Qed.

Lemma pull_spawns_only_the_probe_witness :
  let h := sample_host "nerdctl version 1.7.6" (fun _ => false) in
  let s := final (call (NewImage "docker://ubuntu" (sample_dag "/cache") false)
                    h initial) in
  events (Image.pull 2%positive (Py.Passed true) h s)
  = [Which "nerdctl"; probe;
     Log INFO (Text "Docker image docker://ubuntu will be pulled.")].
Proof.
  cbv zeta.
  refine (proj1 (proj2
    (pull_spawns_only_the_probe
       (sample_host "nerdctl version 1.7.6" (fun _ => false))
       (final (call (NewImage "docker://ubuntu" (sample_dag "/cache") false)
                 (sample_host "nerdctl version 1.7.6" (fun _ => false))
                 initial))
       2%positive
       {| singularity := 1%positive; url := "docker://ubuntu";
          _img_dir := "/cache"; is_containerized := false; _hash := None |}
       (Py.Passed true) _ _ _))).
  - apply reachable_call, reachable_initial.
  - reflexivity.
  - right. left. reflexivity.
Defined.

(** C2 as it is worded fails in each of its three cases: [pull] calls
    [check] first, and [check] runs the version probe. *)
Lemma pull_no_subprocess_counterexample :
  let dag := sample_dag "/cache" in
  let h := sample_host "nerdctl version 1.7.6" (fun _ => false) in
  let h_cached := sample_host "nerdctl version 1.7.6" (fun _ => true) in
  let pulled (u : string) (dryrun : Py.arg bool) (h : Host) : list event :=
    subprocesses
      (events ((let! a := Image.__init__ u dag false in Image.pull a dryrun)
                 h initial)) in
  is_local_file h "/images/ubuntu.sif" = true
  /\ pulled "/images/ubuntu.sif" Py.Omitted h = [probe]
  /\ is_local_file h "docker://ubuntu" = false
  /\ pulled "docker://ubuntu" (Py.Passed true) h = [probe]
  /\ exists_ h_cached "/cache/bc944a5e6b96de252505ab409dacf2fd.simg" = true
  /\ pulled "docker://ubuntu" Py.Omitted h_cached = [probe]
  /\ [probe] <> [].
Proof. cbv zeta. repeat split; try (vm_compute; reflexivity). discriminate. Qed.

(** A remote image that is not in the cache is pulled. *)
Example pull_remote_trace :
  let h := sample_host "nerdctl version 1.7.6" (fun _ => false) in
  subprocesses
    (events ((let! a := Image.__init__ "docker://ubuntu" (sample_dag "/cache")
                          false in
              Image.pull a Py.Omitted) h initial))
  = [probe; Subprocess ["nerdctl"; "pull"; "docker://ubuntu"] (Some "/cache")].
Proof. vm_compute. reflexivity. Qed.

Example pull_failure :
  let h := sample_host "nerdctl version 1.7.6" (fun _ => false) in
  result ((let! a := Image.__init__ "docker://missing" (sample_dag "/cache")
                       false in
           Image.pull a Py.Omitted) h initial)
  = inl (WorkflowError
           ("Failed to pull Docker image from docker://missing:" +:+ Py.nl
            +:+ "manifest unknown")).
Proof. vm_compute. reflexivity. Qed.

(** ** Digest, path and equality of images *)

Section ImageStays.

Variables (l : loc) (u dir : string).

Lemma image_is_Docker_call : preserves (image_is l u dir) Docker.__call__.
Proof.
  intros h s [Hinv (i & Hi & Hu & Hd)]. split; [now apply invariant_Docker_call|].
  rewrite Docker_call_outcome. cbn [final heap]. exists i.
  rewrite lookup_insert_ne; [auto|].
  intros E. apply (singleton_loc_no_image s i Hinv). now rewrite E.
Qed.

Lemma image_is_check (l' : loc) : preserves (image_is l u dir) (Docker.check l').
Proof.
  intros h s [Hinv (i & Hi & Hu & Hd)]. split; [now apply invariant_check|].
  exists i. split; [now apply check_frame | auto].
Qed.

Lemma image_is_hash (l' : loc) : preserves (image_is l u dir) (Image.hash l').
Proof.
  intros h s [Hinv (i & Hi & Hu & Hd)]. split; [now apply invariant_hash|].
  destruct (heap s !! l') as [[d|i']|] eqn:Hl'.
  2: { rewrite (hash_outcome h s l' i' Hl'
                  (proj1 (inv_images s Hinv l' i' Hl'))).
       cbn [final settle heap].
       destruct (decide (l' = l)) as [-> | Hne].
       - rewrite lookup_insert_eq. exists (memoized i').
         rewrite Hi in Hl'. injection Hl' as <-. auto.
       - rewrite lookup_insert_ne by exact Hne. eauto. }
  all: rewrite hash_no_image; [eauto | intros i'; rewrite Hl'; discriminate].
Qed.

Lemma image_is_Image_init (u' : string) (dag : DAG) (c : bool) :
  preserves (image_is l u dir) (Image.__init__ u' dag c).
Proof.
  intros h s H. split; [apply invariant_Image_init, H|].
  destruct (Py.contains " " u') eqn:Hu'.
  { rewrite Image_init_rejected by exact Hu'. apply H. }
  pose proof (image_is_Docker_call h s H) as [_ (i & Hi & Hu & Hd)].
  rewrite Docker_call_outcome in Hi. cbn [final heap] in Hi.
  rewrite (Image_init_outcome h s u' dag c Hu'). cbn [final heap].
  exists i. rewrite lookup_insert_ne; [auto|].
  apply (fresh_differs _ _ _ Hi).
Qed.

(** An image keeps its URL and its cache directory, whatever is
    called. *)
Lemma image_is_run_calls (calls : list (op * Host)) (s : State) :
  image_is l u dir s -> image_is l u dir (run_calls calls s).
Proof.
  apply preserves_run_calls;
    auto using image_is_Docker_call, image_is_check, image_is_hash,
      image_is_Image_init.
Qed.

End ImageStays.

Lemma eq_outcome (h : Host) (s : State) (a b : loc) (ia ib : ImageObj) :
  heap s !! a = Some (OImage ia) -> heap s !! b = Some (OImage ib) ->
  Image.__eq__ a b h s = mkOutcome [] s (inr (String.eqb (url ia) (url ib))).
Proof.
  intros Ha Hb. cbv [Image.__eq__ bind].
  rewrite (image_at_outcome h s a ia Ha). cbv beta iota.
  rewrite (image_at_outcome h s b ib Hb). reflexivity.
Qed.

(** C7: the digest of an image is the MD5 digest of its URL, on the
    first access, on every later access whatever was called in between
    and whatever the host, and for every image with the same URL; the
    cache directory has no part in it.  Two images are equal exactly
    when their URLs are equal, whatever their cache directories. *)
Theorem hash_deterministic_and_eq_by_url (h : Host) (s : State) (a b : loc)
    (ia ib : ImageObj) :
  reachable s ->
  heap s !! a = Some (OImage ia) ->
  heap s !! b = Some (OImage ib) ->
  result (Image.hash a h s) = inr (hashlib.md5_hexdigest (url ia))
  /\ (forall calls h',
        result (Image.hash a h' (run_calls calls s))
        = inr (hashlib.md5_hexdigest (url ia)))
  /\ (url ia = url ib ->
      forall calls calls' h' h'',
        result (Image.hash a h' (run_calls calls s))
        = result (Image.hash b h'' (run_calls calls' s)))
  /\ (result (Image.__eq__ a b h s) = inr true <-> url ia = url ib)
  /\ (result (Image.__eq__ a b h s) = inr false <-> url ia <> url ib).
Proof.
  intros Hs Ha Hb. pose proof (reachable_invariant s Hs) as Hinv.
  assert (Hlater : forall (l : loc) (i : ImageObj) calls h',
            heap s !! l = Some (OImage i) ->
            result (Image.hash l h' (run_calls calls s))
            = inr (hashlib.md5_hexdigest (url i))).
  { intros l i calls h' Hl.
    destruct (image_is_run_calls l (url i) (_img_dir i) calls s)
      as [Hinv' (i' & Hi' & Hu' & _)].
    { split; [exact Hinv | eauto]. }
    rewrite (hash_outcome h' _ l i' Hi' (proj1 (inv_images _ Hinv' l i' Hi'))).
    cbn [result]. now rewrite Hu'. }
  split; [exact (Hlater a ia [] h Ha)|].
  split; [intros calls h'; now apply Hlater|].
  split.
  { intros E calls calls' h' h''.
    rewrite (Hlater a ia calls h' Ha), (Hlater b ib calls' h'' Hb).
    now rewrite E. }
  rewrite (eq_outcome h s a b ia ib Ha Hb). cbn [result].
  destruct (String.eqb_spec (url ia) (url ib)) as [E | E];
    split; split; congruence.
Qed.

Lemma hash_deterministic_and_eq_by_url_witness :
  let h := sample_host "nerdctl version 1.7.6" (fun _ => false) in
  let s := run_calls
             [(NewImage "docker://ubuntu" (sample_dag "/cache/a") false, h);
              (NewImage "docker://ubuntu" (sample_dag "/cache/b") true, h)]
             initial in
  result (Image.hash 2%positive h s) = inr "bc944a5e6b96de252505ab409dacf2fd"
  /\ result (Image.hash 3%positive h s)
     = inr "bc944a5e6b96de252505ab409dacf2fd".
Proof.
  cbv zeta.
  pose proof (hash_deterministic_and_eq_by_url
    (sample_host "nerdctl version 1.7.6" (fun _ => false))
    (run_calls
       [(NewImage "docker://ubuntu" (sample_dag "/cache/a") false,
         sample_host "nerdctl version 1.7.6" (fun _ => false));
        (NewImage "docker://ubuntu" (sample_dag "/cache/b") true,
         sample_host "nerdctl version 1.7.6" (fun _ => false))]
       initial)
    2%positive 3%positive
    {| singularity := 1%positive; url := "docker://ubuntu";
       _img_dir := "/cache/a"; is_containerized := false; _hash := None |}
    {| singularity := 1%positive; url := "docker://ubuntu";
       _img_dir := "/cache/b"; is_containerized := true; _hash := None |}
    (reachable_run_calls _ _ reachable_initial) eq_refl eq_refl)
    as (H1 & _ & H3 & _).
  split.
  - rewrite H1. vm_compute. reflexivity.
  - pose proof (H3 eq_refl [] []
                  (sample_host "nerdctl version 1.7.6" (fun _ => false))
                  (sample_host "nerdctl version 1.7.6" (fun _ => false))) as E.
    change (run_calls [] ?x) with x in E.
    rewrite <- E, H1. vm_compute. reflexivity.
Defined.

(** C8: the path of a local image is the path that [parse_uri] finds
    in its URL; the path of a remote image is the cache directory
    joined with the digest of the URL, followed by [.simg].  The join
    keeps the directory and puts one slash between the two unless the
    directory is empty or ends with a slash already. *)
Theorem path_of_image (h : Host) (s : State) (self : loc) (i : ImageObj) :
  reachable s ->
  heap s !! self = Some (OImage i) ->
  let o := Image.path self h s in
  events o = []
  /\ (is_local_file h (url i) = true ->
      result o = inr (uri_path (parse_uri h (url i))))
  /\ (is_local_file h (url i) = false ->
      result o
      = inr (posixpath.join (_img_dir i) (hashlib.md5_hexdigest (url i))
             +:+ ".simg")
      /\ result o
         = inr (_img_dir i +:+ join_sep (_img_dir i)
                +:+ hashlib.md5_hexdigest (url i) +:+ ".simg")).
Proof.
  intros Hs Hi. cbv zeta.
  pose proof (proj1 (inv_images s (reachable_invariant s Hs) self i Hi)) as Hm.
  rewrite (path_outcome h s self i Hi Hm).
  destruct (is_local_file h (url i)); cbn [events result].
  - split; [reflexivity|]. split; [reflexivity | discriminate].
  - split; [reflexivity|]. split; [discriminate|]. intros _.
    split; [reflexivity|]. rewrite join_digest, !append_assoc. reflexivity.
Qed.

Lemma path_of_image_witness :
  let h := sample_host "nerdctl version 1.7.6" (fun _ => false) in
  let s := run_calls
             [(NewImage "docker://ubuntu" (sample_dag "/cache") false, h);
              (NewImage "file:///images/ubuntu.sif" (sample_dag "/cache") false,
               h)]
             initial in
  result (Image.path 2%positive h s)
  = inr "/cache/bc944a5e6b96de252505ab409dacf2fd.simg"
  /\ result (Image.path 3%positive h s) = inr "/images/ubuntu.sif".
Proof.
  cbv zeta. split.
  - destruct (path_of_image
      (sample_host "nerdctl version 1.7.6" (fun _ => false))
      (run_calls
         [(NewImage "docker://ubuntu" (sample_dag "/cache") false,
           sample_host "nerdctl version 1.7.6" (fun _ => false));
          (NewImage "file:///images/ubuntu.sif" (sample_dag "/cache") false,
           sample_host "nerdctl version 1.7.6" (fun _ => false))]
         initial)
      2%positive
      {| singularity := 1%positive; url := "docker://ubuntu";
         _img_dir := "/cache"; is_containerized := false; _hash := None |}
      (reachable_run_calls _ _ reachable_initial) eq_refl)
      as (_ & _ & H).
    rewrite (proj2 (H eq_refl)). vm_compute. reflexivity.
  - destruct (path_of_image
      (sample_host "nerdctl version 1.7.6" (fun _ => false))
      (run_calls
         [(NewImage "docker://ubuntu" (sample_dag "/cache") false,
           sample_host "nerdctl version 1.7.6" (fun _ => false));
          (NewImage "file:///images/ubuntu.sif" (sample_dag "/cache") false,
           sample_host "nerdctl version 1.7.6" (fun _ => false))]
         initial)
      3%positive
      {| singularity := 1%positive; url := "file:///images/ubuntu.sif";
         _img_dir := "/cache"; is_containerized := false; _hash := None |}
      (reachable_run_calls _ _ reachable_initial) eq_refl)
      as (_ & H & _).
    rewrite (H eq_refl). vm_compute. reflexivity.
Defined.

Example join_sep_cases :
  join_sep "/cache" = "/" /\ join_sep "/cache/" = EmptyString
  /\ join_sep EmptyString = EmptyString.
Proof. repeat split; reflexivity. Qed.

(** * Further properties *)

(** ** How [check] fails *)

(** X1: when [nerdctl] is not on the search path, [check] raises the
    [WorkflowError] that asks for the command; it has looked the
    command up and done nothing else: no subprocess, no change of the
    state. *)
Theorem check_cli_missing (h : Host) (s : State) (l : loc) (d : DockerObj) :
  heap s !! l = Some (ODocker d) ->
  checked d = false ->
  Py.truthy_opt (which h "nerdctl") = false ->
  Docker.check l h s
  = mkOutcome [Which "nerdctl"] s
      (inl (WorkflowError
              "The Docker command has to be available in order to use Docker integration.")).
Proof.
  intros Hl Hc Hw.
  cbv [Docker.check shutil_which bind emit ask ret raise app].
  rewrite (docker_at_outcome h s l d Hl). cbv beta iota.
  rewrite Hc. cbv [negb]. rewrite Hw. reflexivity.
Qed.

(** X2: when the probe exits with a status other than 0, [check]
    raises a [WorkflowError] whose message ends with what the probe
    wrote to its standard error; what it wrote to its standard output
    is dropped, and the state is unchanged. *)
Theorem check_probe_fails (h : Host) (s : State) (l : loc) (d : DockerObj)
    (out err : string) :
  heap s !! l = Some (ODocker d) ->
  checked d = false ->
  Py.truthy_opt (which h "nerdctl") = true ->
  check_output h ["nerdctl"; "--version"] None = CalledProcessError out err ->
  Docker.check l h s
  = mkOutcome [Which "nerdctl"; probe] s
      (inl (WorkflowError
              ("Failed to get Docker version:" +:+ Py.nl +:+ err))).
Proof.
  intros Hl Hc Hw Ho.
  cbv [Docker.check shutil_which subprocess_check_output bind emit ask ret
         raise app].
  rewrite (docker_at_outcome h s l d Hl). cbv beta iota.
  rewrite Hc. cbv [negb]. rewrite Hw. cbv [negb]. rewrite Ho. reflexivity.
Qed.

(** X3: for an output that starts with [apptainer], [check] compares
    the text after the last space with [1.0.0] and does not drop a
    leading [v]; it succeeds exactly when the comparison holds, and
    [version] then returns that text.  A comparison that cannot be made
    is passed on: [TypeError] when a number meets a string,
    [AttributeError] when the text is empty. *)
Theorem check_apptainer_flavour (h : Host) (s : State) (l : loc)
    (d : DockerObj) (out : string) :
  heap s !! l = Some (ODocker d) ->
  checked d = false ->
  Py.truthy_opt (which h "nerdctl") = true ->
  check_output h ["nerdctl"; "--version"] None = Exit0 out ->
  Py.startswith out "apptainer" = true ->
  let v := Py.rsplit1_last out " " in
  let o := Docker.check l h s in
  events o = [Which "nerdctl"; probe]
  /\ result o
     = match LooseVersion.ge v "1.0.0" with
       | LooseVersion.Is true => inr tt
       | LooseVersion.Is false =>
           inl (WorkflowError "Minimum apptainer version is 1.0.0.")
       | LooseVersion.RaisesTypeError => inl TypeError
       | LooseVersion.RaisesAttributeError => inl AttributeError
       end
  /\ (result o = inr tt -> result (Docker.version l h (final o)) = inr v).
Proof.
  intros Hl Hc Hw Ho Happ. cbv zeta.
  cbv [Docker.check Docker.require_version shutil_which
         subprocess_check_output store bind get put emit ask ret raise app].
  rewrite (docker_at_outcome h s l d Hl). cbv beta iota.
  rewrite Hc. cbv [negb]. rewrite Hw. cbv [negb]. rewrite Ho, Happ.
  destruct (LooseVersion.ge _ _) as [[|]| |];
    [|cbn [events result]; repeat split; discriminate ..].
  rewrite (docker_at_outcome h s l d Hl). cbn [events result final].
  split; [reflexivity|]. split; [reflexivity|]. intros _.
  rewrite (version_outcome h _ l
             {| checked := checked d;
                _version := Some (Py.rsplit1_last out " ") |});
    [reflexivity|].
  cbn [heap]. apply lookup_insert_eq.
Qed.

(** X4: a [check] that fails, for whatever reason, leaves the state as
    it was; what [version] returned before it returns afterwards. *)
Theorem check_failure_keeps_state (h : Host) (s : State) (l : loc) (e : exn) :
  result (Docker.check l h s) = inl e ->
  final (Docker.check l h s) = s
  /\ forall h' l', Docker.version l' h' (final (Docker.check l h s))
                   = Docker.version l' h' s.
Proof.
  intros He.
  assert (E : final (Docker.check l h s) = s).
  { destruct (check_cases h s l)
      as [(_ & E & _) | [[e' E] | [[e' E] | (d & v & _ & _ & E)]]];
      [exact E | now rewrite E | now rewrite E |].
    rewrite E in He. discriminate. }
  split; [exact E | intros; now rewrite E].
Qed.

Lemma check_cli_missing_witness :
  Docker.check 1%positive host_without_cli
    (final (Docker.__call__ host_without_cli initial))
  = mkOutcome [Which "nerdctl"]
      (final (Docker.__call__ host_without_cli initial))
      (inl (WorkflowError
              "The Docker command has to be available in order to use Docker integration.")).
Proof.
  apply (check_cli_missing host_without_cli _ 1%positive fresh_docker);
    reflexivity.
Defined.

Lemma check_probe_fails_witness :
  let h := host_with_failing_cli "usage" "cannot connect" in
  result (Docker.check 1%positive h (final (Docker.__call__ h initial)))
  = inl (WorkflowError
           ("Failed to get Docker version:" +:+ Py.nl +:+ "cannot connect")).
Proof.
  cbv zeta.
  rewrite (check_probe_fails (host_with_failing_cli "usage" "cannot connect")
             _ 1%positive fresh_docker "usage" "cannot connect");
    reflexivity.
Defined.

Lemma check_apptainer_flavour_witness :
  let h := sample_host "apptainer version v1.2.0" (fun _ => false) in
  result (Docker.check 1%positive h (final (Docker.__call__ h initial)))
  = inl TypeError.
Proof.
  cbv zeta.
  rewrite (proj1 (proj2
    (check_apptainer_flavour
       (sample_host "apptainer version v1.2.0" (fun _ => false))
       (final (Docker.__call__
                 (sample_host "apptainer version v1.2.0" (fun _ => false))
                 initial))
       1%positive fresh_docker "apptainer version v1.2.0"
       eq_refl eq_refl eq_refl eq_refl eq_refl))).
  reflexivity.
Defined.

Lemma check_failure_keeps_state_witness :
  let good := sample_host "nerdctl version 1.7.6" (fun _ => false) in
  let s := final ((let! d := Docker.__call__ in Docker.check d) good initial) in
  result (Docker.version 1%positive good
            (final (Docker.check 1%positive host_without_cli s)))
  = inr "1.7.6".
Proof.
  cbv zeta.
  rewrite (proj2
    (check_failure_keeps_state host_without_cli
       (final ((let! d := Docker.__call__ in Docker.check d)
                 (sample_host "nerdctl version 1.7.6" (fun _ => false))
                 initial))
       1%positive
       (WorkflowError
          "The Docker command has to be available in order to use Docker integration.")
       eq_refl)).
  reflexivity.
Defined.

(** ** Versions made of numbers *)

Lemma runs_head (c : ascii) (s : string) :
  exists r tl, LooseVersion.runs (String c s)
               = (LooseVersion.classify c, r) :: tl.
Proof.
  cbn [LooseVersion.runs]. destruct (LooseVersion.runs s) as [|[k' r] tl].
  - eauto.
  - destruct (_ && _); eauto.
Qed.

Lemma runs_dot (s : string) :
  LooseVersion.runs (String "." s)
  = (LooseVersion.KDot, ".") :: LooseVersion.runs s.
Proof.
  cbn [LooseVersion.runs].
  change (LooseVersion.classify ".") with LooseVersion.KDot.
  destruct (LooseVersion.runs s) as [|[k' r] tl]; [reflexivity|].
  cbn [LooseVersion.kind_eqb negb]. rewrite andb_false_r. reflexivity.
Qed.

(** A run of digits is one component, up to the end of the text or to
    the first character that is not a digit. *)
Lemma runs_digits (d rest : string) :
  all_digits d = true -> d <> EmptyString ->
  rest = EmptyString
  \/ (exists c r, rest = String c r /\ is_digit c = false) ->
  LooseVersion.runs (d +:+ rest)
  = (LooseVersion.KDigit, d) :: LooseVersion.runs rest.
Proof.
  intros Hd Hne Hrest. induction d as [|c d IH]; [congruence|].
  cbn [all_digits] in Hd. apply andb_true_iff in Hd as [Hc Hd].
  assert (Hk : LooseVersion.classify c = LooseVersion.KDigit).
  { unfold is_digit in Hc. now destruct (LooseVersion.classify c). }
  rewrite append_cons. cbn [LooseVersion.runs]. rewrite Hk.
  destruct d as [|c' d'].
  - rewrite append_nil_l. destruct Hrest as [-> | (c2 & r & -> & Hc2)];
      [reflexivity|].
    destruct (runs_head c2 r) as (r' & tl & ->).
    unfold is_digit in Hc2.
    destruct (LooseVersion.classify c2); try discriminate; reflexivity.
  - rewrite IH by (auto; discriminate). reflexivity.
Qed.

Lemma number_head (d : string) :
  number d -> exists c r, d = String c r /\ is_digit c = true.
Proof.
  intros (Hd & Hne & _). destruct d as [|c r]; [congruence|].
  cbn [all_digits] in Hd. apply andb_true_iff in Hd as [Hc _]. eauto.
Qed.

Lemma join_cons2 (sep x y : string) (l : list string) :
  Py.join sep (x :: y :: l) = x +:+ sep +:+ Py.join sep (y :: l).
Proof. reflexivity. Qed.

(** Numbers joined with dots parse to the list of their values. *)
Lemma int_number (d : string) :
  number d -> LooseVersion.int d = Some (LooseVersion.int_of_digits 0 d).
Proof.
  intros (_ & _ & Hlen). unfold LooseVersion.int.
  now rewrite (proj2 (N.leb_le _ _) Hlen).
Qed.

Lemma parse_dotted (ds : list string) :
  Forall number ds -> ds <> [] ->
  LooseVersion.parse (Py.join "." ds)
  = map (fun d => LooseVersion.CInt (LooseVersion.int_of_digits 0 d)) ds.
Proof.
  intros Hds Hne. induction Hds as [|d ds Hd Hds IH]; [congruence|].
  pose proof Hd as (Hdig & Hnonempty & _).
  destruct ds as [|d2 ds].
  - cbn [Py.join map]. unfold LooseVersion.parse.
    rewrite <- (append_nil_r d) at 1.
    rewrite (runs_digits d EmptyString Hdig Hnonempty) by now left.
    cbn [LooseVersion.runs flat_map fst snd app].
    now rewrite (int_number d Hd).
  - rewrite join_cons2. unfold LooseVersion.parse in *.
    rewrite (runs_digits d _ Hdig Hnonempty).
    2: { right. exists "."%char. eexists. split; reflexivity. }
    change ("." +:+ ?x) with (String "." x). rewrite runs_dot.
    cbn [flat_map fst snd app map]. rewrite (int_number d Hd).
    cbn [app]. rewrite IH by discriminate. reflexivity.
Qed.

(** On versions made of numbers, [_cmp] is the order of the lists of
    numbers. *)
Lemma cmp_numbers (a b : list N) :
  exists c : Z,
    LooseVersion._cmp (map LooseVersion.CInt a) (map LooseVersion.CInt b)
    = Some c
    /\ (0 <=? c)%Z = lex_leb b a.
Proof.
  revert b. induction a as [|x a IH]; intros [|y b].
  - exists 0%Z. split; reflexivity.
  - exists (-1)%Z. split; reflexivity.
  - exists 1%Z. split; reflexivity.
  - unfold LooseVersion._cmp in *.
    cbn [map LooseVersion.list_eqb LooseVersion.list_lt
           LooseVersion.component_eqb LooseVersion.component_lt lex_leb].
    rewrite (N.eqb_sym y x).
    destruct (N.eqb_spec x y) as [-> | Hne]; [apply IH|].
    cbn [andb]. destruct (N.ltb_spec x y) as [Hlt | Hge].
    + exists (-1)%Z. split; [reflexivity|].
      symmetry. apply N.ltb_ge. lia.
    + exists 1%Z. split; [reflexivity|].
      symmetry. apply N.ltb_lt. lia.
Qed.

Lemma ge_dotted (ds : list string) :
  Forall number ds -> ds <> [] ->
  LooseVersion.ge (Py.join "." ds) "0.22.2"
  = LooseVersion.Is
      (lex_leb [0; 22; 2]%N (map (LooseVersion.int_of_digits 0) ds)).
Proof.
  intros Hds Hne. unfold LooseVersion.ge, LooseVersion.version.
  assert (Htruthy : Py.truthy (Py.join "." ds) = true).
  { destruct Hds as [|d ds Hd _]; [congruence|].
    destruct (number_head d Hd) as (c & r & -> & _).
    destruct ds; [reflexivity|]. now rewrite join_cons2, append_cons. }
  rewrite Htruthy, (parse_dotted ds Hds Hne).
  change (Py.truthy "0.22.2") with true. cbv iota.
  change (LooseVersion.parse "0.22.2")
    with (map LooseVersion.CInt [0; 22; 2]%N).
  rewrite <- (map_map (LooseVersion.int_of_digits 0) LooseVersion.CInt).
  destruct (cmp_numbers (map (LooseVersion.int_of_digits 0) ds) [0; 22; 2]%N)
    as (c & -> & Hc).
  now rewrite Hc.
Qed.

Lemma after_last_app (sep : ascii) (pre v : string) :
  Py.contains sep v = false ->
  pre = EmptyString \/ (exists p, pre = p +:+ String sep EmptyString) ->
  Py.after_last sep (pre +:+ v) = v.
Proof.
  intros Hv [-> | (p & ->)]; [now apply after_last_absent|].
  induction p as [|x p IH].
  - rewrite append_nil_l, append_cons, append_nil_l. cbn [Py.after_last].
    now rewrite Hv, Ascii.eqb_refl.
  - rewrite !append_cons. cbn [Py.after_last].
    rewrite !contains_app. cbn [Py.contains]. rewrite Ascii.eqb_refl.
    rewrite orb_true_r. exact IH.
Qed.

Lemma digits_without (c : ascii) (d : string) :
  is_digit c = false -> all_digits d = true -> Py.contains c d = false.
Proof.
  intros Hc. induction d as [|x d IH]; [reflexivity|].
  cbn [all_digits Py.contains]. intros H.
  apply andb_true_iff in H as [Hx Hd]. rewrite (IH Hd), orb_false_r.
  destruct (Ascii.eqb_spec x c) as [-> | _]; [congruence | reflexivity].
Qed.

Lemma dotted_without (c : ascii) (ds : list string) :
  is_digit c = false -> Ascii.eqb "." c = false ->
  Forall number ds -> Py.contains c (Py.join "." ds) = false.
Proof.
  intros Hc Hdot Hds. induction Hds as [|d ds [Hd _] _ IH]; [reflexivity|].
  destruct ds as [|d2 ds].
  - cbn [Py.join]. now apply digits_without.
  - rewrite join_cons2, !contains_app, IH, (digits_without c d Hc Hd).
    cbn [Py.contains]. now rewrite Hdot.
Qed.

Lemma dotted_head (ds : list string) :
  Forall number ds -> ds <> [] ->
  exists c r, Py.join "." ds = String c r /\ is_digit c = true.
Proof.
  intros Hds Hne. destruct Hds as [|d ds Hd _]; [congruence|].
  destruct (number_head d Hd) as (c & r & -> & Hc).
  destruct ds as [|d2 ds]; [cbn [Py.join]; eauto|].
  rewrite join_cons2, append_cons. eauto.
Qed.

Lemma digit_not_v (c : ascii) (r : string) :
  is_digit c = true -> Py.startswith (String c r) "v" = false.
Proof.
  intros Hc. unfold Py.startswith. cbn [String.prefix].
  destruct (ascii_dec "v" c) as [<- | _]; [discriminate | reflexivity].
Qed.

(** X5: when the probe prints numbers joined by dots, alone or after a
    text that ends with a space, each number of no more digits than
    [int] converts (4300), [check] succeeds exactly when the list of
    the numbers is at least [[0; 22; 2]], the first difference deciding
    and a proper prefix being smaller: numbers are compared as numbers,
    not as text.  [version] then returns the dotted text. *)
Theorem check_numeric_version (h : Host) (s : State) (l : loc)
    (d : DockerObj) (pre : string) (ds : list string) :
  heap s !! l = Some (ODocker d) ->
  checked d = false ->
  Py.truthy_opt (which h "nerdctl") = true ->
  check_output h ["nerdctl"; "--version"] None
  = Exit0 (pre +:+ Py.join "." ds) ->
  Py.startswith (pre +:+ Py.join "." ds) "apptainer" = false ->
  pre = EmptyString \/ (exists p, pre = p +:+ " ") ->
  Forall number ds -> ds <> [] ->
  let ns := map (LooseVersion.int_of_digits 0) ds in
  let o := Docker.check l h s in
  result o
  = (if lex_leb [0; 22; 2]%N ns then inr tt
     else inl (WorkflowError "Minimum Docker version is 0.22.2."))
  /\ (lex_leb [0; 22; 2]%N ns = true ->
      result (Docker.version l h (final o)) = inr (Py.join "." ds)).
Proof.
  intros Hl Hc Hw Ho Happ Hpre Hds Hne. cbv zeta.
  pose proof (check_docker_flavour h s l d Hl Hc Hw _ Ho Happ) as E.
  cbv zeta in E. unfold Py.rsplit1_last in E.
  rewrite (after_last_app " " pre (Py.join "." ds)) in E;
    [|now apply dotted_without | exact Hpre].
  assert (Hv : Py.startswith (Py.join "." ds) "v" = false).
  { destruct (dotted_head ds Hds Hne) as (c & r & -> & Hdigit).
    now apply digit_not_v. }
  rewrite Hv, (ge_dotted ds Hds Hne) in E. rewrite E.
  destruct (lex_leb _ _); cbn [result final].
  - split; [reflexivity|]. intros _.
    rewrite (version_outcome h _ l
               {| checked := false; _version := Some (Py.join "." ds) |});
      [reflexivity|].
    cbn [heap]. apply lookup_insert_eq.
  - split; [reflexivity | discriminate].
Qed.

Lemma check_numeric_version_witness :
  let h := sample_host "nerdctl version 0.100.0" (fun _ => false) in
  let o := Docker.check 1%positive h (final (Docker.__call__ h initial)) in
  result o = inr tt
  /\ result (Docker.version 1%positive h (final o)) = inr "0.100.0".
Proof.
  cbv zeta.
  destruct (check_numeric_version
    (sample_host "nerdctl version 0.100.0" (fun _ => false))
    (final (Docker.__call__
              (sample_host "nerdctl version 0.100.0" (fun _ => false))
              initial))
    1%positive fresh_docker "nerdctl version " ["0"; "100"; "0"]
    eq_refl eq_refl eq_refl eq_refl eq_refl
    (or_intror (ex_intro _ "nerdctl version" eq_refl)))
    as [H1 H2].
  - repeat constructor; discriminate.
  - discriminate.
  - split; [exact H1 | exact (H2 eq_refl)].
Defined.

(** X6: when the text that [check] takes for the version starts with
    a character that is neither a digit nor a dot (a letter other than
    the one leading [v], a sign), the comparison with [0.22.2] meets a
    string and a number: [check] raises [TypeError], which is no
    [WorkflowError], and leaves the state as it was. *)
Theorem check_version_not_a_number (h : Host) (s : State) (l : loc)
    (d : DockerObj) (out : string) (c : ascii) (r : string) :
  heap s !! l = Some (ODocker d) ->
  checked d = false ->
  Py.truthy_opt (which h "nerdctl") = true ->
  check_output h ["nerdctl"; "--version"] None = Exit0 out ->
  Py.startswith out "apptainer" = false ->
  (let v0 := Py.rsplit1_last out " " in
   if Py.startswith v0 "v" then Py.tail1 v0 else v0) = String c r ->
  is_digit c = false -> Ascii.eqb c "." = false ->
  Docker.check l h s = mkOutcome [Which "nerdctl"; probe] s (inl TypeError).
Proof.
  intros Hl Hc Hw Ho Happ Hv Hdigit Hdot. cbv zeta in Hv.
  pose proof (check_docker_flavour h s l d Hl Hc Hw _ Ho Happ) as E.
  cbv zeta in E. rewrite Hv in E. rewrite E.
  assert (Hge : LooseVersion.ge (String c r) "0.22.2"
                = LooseVersion.RaisesTypeError).
  { unfold LooseVersion.ge, LooseVersion.version.
    change (LooseVersion.parse "0.22.2")
      with [LooseVersion.CInt 0; LooseVersion.CInt 22; LooseVersion.CInt 2].
    cbn [Py.truthy]. unfold LooseVersion.parse.
    destruct (runs_head c r) as (r' & tl & ->).
    cbn [flat_map fst snd app].
    assert (Hk : LooseVersion.classify c = LooseVersion.KLower
                 \/ LooseVersion.classify c = LooseVersion.KOther).
    { unfold is_digit in Hdigit. unfold LooseVersion.classify in *.
      destruct (_ && _); [discriminate|].
      destruct (_ && _); [now left|].
      rewrite <- (ascii_N_embedding c) in Hdot.
      destruct (N.eqb_spec (N_of_ascii c) 46) as [E46 | _]; [|now right].
      rewrite E46 in Hdot. discriminate. }
    destruct Hk as [-> | ->]; reflexivity. }
  now rewrite Hge.
Qed.

Lemma check_version_not_a_number_witness :
  let h := sample_host "nerdctl version dev" (fun _ => false) in
  Docker.check 1%positive h (final (Docker.__call__ h initial))
  = mkOutcome [Which "nerdctl"; probe] (final (Docker.__call__ h initial))
      (inl TypeError).
Proof.
  cbv zeta.
  apply (check_version_not_a_number
           (sample_host "nerdctl version dev" (fun _ => false))
           _ 1%positive fresh_docker "nerdctl version dev" "d" "ev");
    reflexivity.
Defined.

(** ** Pulling a remote image *)

(** X7: [pull] passes a failure of [check] on as it is: the same
    exception, the same trace, the state as [check] left it, and
    nothing of its own, whatever the image and whatever [dryrun]. *)
Theorem pull_passes_check_failure (h : Host) (s : State) (self : loc)
    (i : ImageObj) (dryrun : Py.arg bool) (e : exn) :
  heap s !! self = Some (OImage i) ->
  result (Docker.check (singularity i) h s) = inl e ->
  Image.pull self dryrun h s = Docker.check (singularity i) h s.
Proof.
  intros Hi He. cbv [Image.pull bind].
  rewrite (image_at_outcome h s self i Hi). cbv beta iota.
  destruct (Docker.check (singularity i) h s) as [t s1 [e' | []]];
    [reflexivity | discriminate].
Qed.

Lemma pull_passes_check_failure_witness :
  let good := sample_host "nerdctl version 1.7.6" (fun _ => false) in
  let s := final (Image.__init__ "docker://ubuntu" (sample_dag "/cache") false
                    good initial) in
  Image.pull 2%positive Py.Omitted host_without_cli s
  = mkOutcome [Which "nerdctl"] s
      (inl (WorkflowError
              "The Docker command has to be available in order to use Docker integration.")).
Proof.
  cbv zeta.
  rewrite (pull_passes_check_failure host_without_cli
             (final (Image.__init__ "docker://ubuntu" (sample_dag "/cache")
                       false
                       (sample_host "nerdctl version 1.7.6" (fun _ => false))
                       initial))
             2%positive
             {| singularity := 1%positive; url := "docker://ubuntu";
                _img_dir := "/cache"; is_containerized := false;
                _hash := None |}
             Py.Omitted
             (WorkflowError
                "The Docker command has to be available in order to use Docker integration.")
             eq_refl eq_refl).
  reflexivity.
Defined.

(** X8: for a remote image that is not in the cache and a run that is
    not dry, after a [check] that succeeded [pull] logs the path, tests
    it, logs the pull and the command, and runs [nerdctl pull <url>] in
    the cache directory, once.  It returns when the subprocess exits
    with status 0, and raises a [WorkflowError] with the URL and the
    captured output otherwise. *)
Theorem pull_remote_image (h : Host) (s : State) (self : loc)
    (i : ImageObj) (dryrun : Py.arg bool) :
  reachable s ->
  heap s !! self = Some (OImage i) ->
  result (Docker.check (singularity i) h s) = inr tt ->
  is_local_file h (url i) = false ->
  Py.or_default false dryrun = false ->
  exists_ h (posixpath.join (_img_dir i) (hashlib.md5_hexdigest (url i))
             +:+ ".simg") = false ->
  let o := Image.pull self dryrun h s in
  events o
  = events (Docker.check (singularity i) h s) ++ pull_remote_tail i
  /\ result o
     = match check_output h ["nerdctl"; "pull"; url i] (Some (_img_dir i)) with
       | Exit0 _ => inr tt
       | CalledProcessError out _ =>
           inl (WorkflowError
                  ("Failed to pull Docker image from " +:+ url i +:+ ":"
                   +:+ Py.nl +:+ out))
       end.
Proof.
  intros Hs Hi Hok Hlocal Hdry Hmiss. cbv zeta.
  pose proof (proj1 (inv_images s (reachable_invariant s Hs) self i Hi)) as Hm.
  pose proof (check_frame h s (singularity i) self i Hi) as Hi'.
  cbv [Image.pull bind]. rewrite (image_at_outcome h s self i Hi).
  cbv beta iota.
  destruct (Docker.check (singularity i) h s) as [t s1 [e | []]];
    [discriminate|].
  cbn [final result events] in *. cbn [app].
  rewrite (is_local_outcome h s1 self i Hi'). cbv beta iota.
  rewrite Hlocal, Hdry.
  rewrite (path_outcome h s1 self i Hi' Hm), Hlocal. cbv beta iota.
  cbv [logger_debug logger_info emit].
  rewrite (path_outcome h (settle s1 self i) self (memoized i)
             (settle_lookup s1 self i) (memoized_ok i)).
  cbn [url memoized _img_dir]. rewrite Hlocal.
  cbv [os_path_exists subprocess_check_output bind emit ask ret raise].
  rewrite Hmiss. cbv [negb].
  destruct (check_output h _ _); split; reflexivity.
Qed.

Lemma pull_remote_image_witness :
  let h := sample_host "nerdctl version 1.7.6" (fun _ => false) in
  let s := run_calls
             [(NewImage "docker://missing" (sample_dag "/cache") false, h)]
             initial in
  result (Image.pull 2%positive Py.Omitted h s)
  = inl (WorkflowError
           ("Failed to pull Docker image from docker://missing:" +:+ Py.nl
            +:+ "manifest unknown")).
Proof.
  cbv zeta.
  rewrite (proj2
    (pull_remote_image
       (sample_host "nerdctl version 1.7.6" (fun _ => false))
       (run_calls
          [(NewImage "docker://missing" (sample_dag "/cache") false,
            sample_host "nerdctl version 1.7.6" (fun _ => false))]
          initial)
       2%positive
       {| singularity := 1%positive; url := "docker://missing";
          _img_dir := "/cache"; is_containerized := false; _hash := None |}
       Py.Omitted
       (reachable_run_calls _ _ reachable_initial)
       eq_refl eq_refl eq_refl eq_refl eq_refl)).
  reflexivity.
Defined.

(** ** One singleton for all images *)

Section OneDocker.

Lemma one_docker_initial : one_docker initial.
Proof. intros l d. cbn [initial heap]. now rewrite lookup_empty. Qed.

Lemma one_docker_Docker_call : preserves singleton_state Docker.__call__.
Proof.
  intros h s [Hinv H1]. split; [now apply invariant_Docker_call|].
  rewrite Docker_call_outcome. intros l d. cbn [final heap instance].
  destruct (decide (singleton_loc s = l)) as [-> | Hne]; [reflexivity|].
  rewrite lookup_insert_ne by exact Hne. intros Hl.
  unfold singleton_loc. now rewrite (H1 l d Hl).
Qed.

Lemma one_docker_check (l' : loc) : preserves singleton_state (Docker.check l').
Proof.
  intros h s [Hinv H1]. split; [now apply invariant_check|].
  destruct (check_cases h s l')
    as [(_ & -> & _) | [[e ->] | [[e ->] | (d & v & Hl & _ & ->)]]];
    try exact H1.
  intros l d0. cbn [final heap instance].
  destruct (decide (l' = l)) as [<- | Hne]; [intros _; exact (H1 l' d Hl)|].
  rewrite lookup_insert_ne by exact Hne. apply H1.
Qed.

Lemma one_docker_hash (l' : loc) : preserves singleton_state (Image.hash l').
Proof.
  intros h s [Hinv H1]. split; [now apply invariant_hash|].
  destruct (heap s !! l') as [[d|i]|] eqn:Hl'.
  2: { rewrite (hash_outcome h s l' i Hl'
                  (proj1 (inv_images s Hinv l' i Hl'))).
       intros l d. cbn [final settle heap instance].
       destruct (decide (l' = l)) as [<- | Hne].
       - rewrite lookup_insert_eq. discriminate.
       - rewrite lookup_insert_ne by exact Hne. apply H1. }
  all: rewrite hash_no_image; [exact H1 | intros i; rewrite Hl'; discriminate].
Qed.

Lemma one_docker_Image_init (u : string) (dag : DAG) (c : bool) :
  preserves singleton_state (Image.__init__ u dag c).
Proof.
  intros h s HP. split; [apply invariant_Image_init, HP|].
  destruct (Py.contains " " u) eqn:Hu.
  { rewrite Image_init_rejected by exact Hu. apply HP. }
  pose proof (one_docker_Docker_call h s HP) as [_ H1].
  rewrite Docker_call_outcome in H1. cbn [final] in H1.
  rewrite (Image_init_outcome h s u dag c Hu). intros l d.
  cbn [final heap instance].
  match goal with |- <[?a := _]> _ !! _ = _ -> _ =>
    destruct (decide (a = l)) as [<- | Hne] end.
  - rewrite lookup_insert_eq. discriminate.
  - rewrite lookup_insert_ne by exact Hne. apply H1.
Qed.

Lemma reachable_one_docker (s : State) : reachable s -> one_docker s.
Proof.
  intros Hs. apply (preserves_reachable singleton_state);
    auto using one_docker_Docker_call, one_docker_check, one_docker_hash,
      one_docker_Image_init.
  split; [apply invariant_initial | apply one_docker_initial].
Qed.

End OneDocker.

(** What [pull] leaves behind when its [check] succeeded: the state
    after [check], with the digest of the image filled in or not. *)
Lemma pull_final (h : Host) (s : State) (self : loc) (i : ImageObj)
    (dryrun : Py.arg bool) :
  invariant s ->
  heap s !! self = Some (OImage i) ->
  result (Docker.check (singularity i) h s) = inr tt ->
  final (Image.pull self dryrun h s) = final (Docker.check (singularity i) h s)
  \/ final (Image.pull self dryrun h s)
     = settle (final (Docker.check (singularity i) h s)) self i.
Proof.
  intros Hinv Hi Hok.
  pose proof (proj1 (inv_images s Hinv self i Hi)) as Hm.
  pose proof (check_frame h s (singularity i) self i Hi) as Hi'.
  cbv [Image.pull bind]. rewrite (image_at_outcome h s self i Hi).
  cbv beta iota.
  destruct (Docker.check (singularity i) h s) as [t s1 [e | []]];
    [discriminate|].
  cbn [final result events] in *.
  rewrite (is_local_outcome h s1 self i Hi'). cbv beta iota.
  destruct (is_local_file h (url i)) eqn:Hlocal; [now left|].
  destruct (Py.or_default false dryrun); [now left|].
  rewrite (path_outcome h s1 self i Hi' Hm), Hlocal. cbv beta iota.
  cbv [logger_debug logger_info emit].
  rewrite (path_outcome h (settle s1 self i) self (memoized i)
             (settle_lookup s1 self i) (memoized_ok i)).
  cbn [url memoized _img_dir]. rewrite Hlocal, settle_settle.
  cbv [os_path_exists subprocess_check_output bind emit ask ret raise].
  destruct (exists_ h _); cbv [negb]; [now right|].
  destruct (check_output h _ _); now right.
Qed.

(** X9: in every state of a process the heap holds at most one
    [Docker] object, the one that the class holds, and every image
    refers to it.  So a [pull] that succeeds through one image makes
    [version] succeed through every other image. *)
Theorem images_share_the_singleton (s : State) (a b : loc)
    (ia ib : ImageObj) :
  reachable s ->
  heap s !! a = Some (OImage ia) ->
  heap s !! b = Some (OImage ib) ->
  singularity ia = singularity ib
  /\ instance s = Some (singularity ia)
  /\ (exists d, heap s !! singularity ia = Some (ODocker d))
  /\ (forall l d, heap s !! l = Some (ODocker d) -> l = singularity ia)
  /\ (forall h dryrun,
        result (Image.pull a dryrun h s) = inr tt ->
        exists v,
          result (Docker.version (singularity ib) h
                    (final (Image.pull a dryrun h s))) = inr v).
Proof.
  intros Hs Ha Hb. pose proof (reachable_invariant s Hs) as Hinv.
  destruct (inv_images s Hinv a ia Ha) as [_ Hia].
  destruct (inv_images s Hinv b ib Hb) as [_ Hib].
  assert (Hsame : singularity ia = singularity ib) by congruence.
  split; [exact Hsame|]. split; [exact Hia|].
  split; [exact (inv_instance s Hinv _ Hia)|].
  split.
  { intros l d Hl. pose proof (reachable_one_docker s Hs l d Hl). congruence. }
  intros h dryrun Hok. rewrite <- Hsame.
  assert (Hc : result (Docker.check (singularity ia) h s) = inr tt).
  { revert Hok. cbv [Image.pull bind].
    rewrite (image_at_outcome h s a ia Ha). cbv beta iota.
    destruct (Docker.check (singularity ia) h s) as [t s1 [e | []]];
      [discriminate | reflexivity]. }
  assert (Hd : exists v,
             heap (final (Docker.check (singularity ia) h s)) !! singularity ia
             = Some (ODocker {| checked := false; _version := Some v |})).
  { destruct (check_cases h s (singularity ia))
      as [(_ & _ & [Hr | (_ & d & Hl & Hch)])
         | [[e E] | [[e E] | (d & v & Hl & _ & E)]]].
    - rewrite Hr in Hc. discriminate.
    - rewrite (inv_unchecked s Hinv _ d Hl) in Hch. discriminate.
    - rewrite E in Hc. discriminate.
    - rewrite E in Hc. discriminate.
    - exists v. rewrite E. cbn [final heap]. apply lookup_insert_eq. }
  destruct Hd as [v Hd]. exists v.
  assert (Hd' : heap (final (Image.pull a dryrun h s)) !! singularity ia
                = Some (ODocker {| checked := false; _version := Some v |})).
  { destruct (pull_final h s a ia dryrun Hinv Ha Hc) as [-> | ->];
      [exact Hd|].
    unfold settle. cbn [heap]. rewrite lookup_insert_ne; [exact Hd|].
    intros E. pose proof (check_frame h s (singularity ia) a ia Ha) as Hf.
    rewrite E in Hf. congruence. }
  rewrite (version_outcome h _ _ _ Hd'). reflexivity.
Qed.

Lemma images_share_the_singleton_witness :
  let h := sample_host "nerdctl version 1.7.6" (fun _ => false) in
  let s := run_calls
             [(NewImage "/images/a.sif" (sample_dag "/cache") false, h);
              (NewImage "docker://ubuntu" (sample_dag "/cache") false, h)]
             initial in
  exists v,
    result (Docker.version 1%positive h
              (final (Image.pull 2%positive Py.Omitted h s))) = inr v.
Proof.
  cbv zeta.
  destruct (images_share_the_singleton
    (run_calls
       [(NewImage "/images/a.sif" (sample_dag "/cache") false,
         sample_host "nerdctl version 1.7.6" (fun _ => false));
        (NewImage "docker://ubuntu" (sample_dag "/cache") false,
         sample_host "nerdctl version 1.7.6" (fun _ => false))]
       initial)
    2%positive 3%positive
    {| singularity := 1%positive; url := "/images/a.sif";
       _img_dir := "/cache"; is_containerized := false; _hash := None |}
    {| singularity := 1%positive; url := "docker://ubuntu";
       _img_dir := "/cache"; is_containerized := false; _hash := None |}
    (reachable_run_calls _ _ reachable_initial) eq_refl eq_refl)
    as (_ & _ & _ & _ & H).
  apply (H (sample_host "nerdctl version 1.7.6" (fun _ => false)) Py.Omitted).
  reflexivity.
Defined.

(** ** Images do not change *)

Section SameImage.

Variables (l : loc) (i0 : ImageObj).

Lemma memoized_memoized (i : ImageObj) : memoized (memoized i) = memoized i.
Proof. reflexivity. Qed.

Lemma same_image_Docker_call : preserves (same_image l i0) Docker.__call__.
Proof.
  intros h s [Hinv Hl]. split; [now apply invariant_Docker_call|].
  rewrite Docker_call_outcome. cbn [final heap].
  rewrite lookup_insert_ne; [exact Hl|].
  intros E. destruct Hl as [Hl | Hl].
  - apply (singleton_loc_no_image s i0 Hinv). now rewrite E.
  - apply (singleton_loc_no_image s (memoized i0) Hinv). now rewrite E.
Qed.

Lemma same_image_check (l' : loc) :
  preserves (same_image l i0) (Docker.check l').
Proof.
  intros h s [Hinv Hl]. split; [now apply invariant_check|].
  destruct Hl as [Hl | Hl]; [left | right]; now apply check_frame.
Qed.

Lemma same_image_hash (l' : loc) :
  preserves (same_image l i0) (Image.hash l').
Proof.
  intros h s [Hinv Hl]. split; [now apply invariant_hash|].
  destruct (heap s !! l') as [[d|i']|] eqn:Hl'.
  2: { rewrite (hash_outcome h s l' i' Hl'
                  (proj1 (inv_images s Hinv l' i' Hl'))).
       cbn [final settle heap].
       destruct (decide (l' = l)) as [-> | Hne].
       - rewrite lookup_insert_eq. right.
         destruct Hl as [Hl | Hl]; rewrite Hl in Hl'; now injection Hl' as <-.
       - rewrite lookup_insert_ne by exact Hne. exact Hl. }
  all: rewrite hash_no_image; [exact Hl | intros i'; rewrite Hl'; discriminate].
Qed.

Lemma same_image_Image_init (u : string) (dag : DAG) (c : bool) :
  preserves (same_image l i0) (Image.__init__ u dag c).
Proof.
  intros h s H. split; [apply invariant_Image_init, H|].
  destruct (Py.contains " " u) eqn:Hu.
  { rewrite Image_init_rejected by exact Hu. apply H. }
  pose proof (same_image_Docker_call h s H) as [_ Hl].
  rewrite Docker_call_outcome in Hl. cbn [final heap] in Hl.
  rewrite (Image_init_outcome h s u dag c Hu). cbn [final heap].
  rewrite lookup_insert_ne; [exact Hl|].
  destruct Hl as [Hl | Hl]; apply (fresh_differs _ _ _ Hl).
Qed.

Lemma same_image_run_calls (calls : list (op * Host)) (s : State) :
  same_image l i0 s -> same_image l i0 (run_calls calls s).
Proof.
  apply preserves_run_calls;
    auto using same_image_Docker_call, same_image_check, same_image_hash,
      same_image_Image_init.
Qed.

End SameImage.

(** X10: an image never changes after its construction, except that
    its digest is filled in: whatever operations follow, on this image
    or on others, the object at its location has the same URL, cache
    directory, flag and singleton, and its digest cell is as it was or
    holds the digest of the URL. *)
Theorem image_is_immutable (s : State) (l : loc) (i : ImageObj)
    (calls : list (op * Host)) :
  reachable s ->
  heap s !! l = Some (OImage i) ->
  heap (run_calls calls s) !! l = Some (OImage i)
  \/ heap (run_calls calls s) !! l = Some (OImage (memoized i)).
Proof.
  intros Hs Hl.
  apply (same_image_run_calls l i calls s).
  split; [now apply reachable_invariant | now left].
Qed.

Lemma image_is_immutable_witness :
  let h := sample_host "nerdctl version 1.7.6" (fun _ => false) in
  let s := run_calls
             [(NewImage "docker://ubuntu" (sample_dag "/cache") true, h)]
             initial in
  let i := {| singularity := 1%positive; url := "docker://ubuntu";
              _img_dir := "/cache"; is_containerized := true;
              _hash := None |} in
  let later := run_calls
                 [(ImagePull 2%positive Py.Omitted, h);
                  (NewImage "docker://alpine" (sample_dag "/tmp") false, h);
                  (NewDocker, h)] s in
  heap later !! 2%positive = Some (OImage i)
  \/ heap later !! 2%positive = Some (OImage (memoized i)).
Proof.
  cbv zeta.
  apply (image_is_immutable
           (run_calls
              [(NewImage "docker://ubuntu" (sample_dag "/cache") true,
                sample_host "nerdctl version 1.7.6" (fun _ => false))]
              initial)).
  - apply reachable_run_calls, reachable_initial.
  - reflexivity.
Defined.

(** ** The digest is computed once *)

(** X11: the first access to [hash] writes the digest into the image
    and touches nothing else; a second access finds it there and
    leaves the state exactly as it is.  No access causes an event. *)
Theorem hash_is_computed_once (h h' : Host) (s : State) (l : loc)
    (i : ImageObj) :
  reachable s ->
  heap s !! l = Some (OImage i) ->
  let s1 := final (Image.hash l h s) in
  events (Image.hash l h s) = []
  /\ heap s1 !! l = Some (OImage (memoized i))
  /\ (forall l', l' <> l -> heap s1 !! l' = heap s !! l')
  /\ instance s1 = instance s
  /\ Image.hash l h' s1
     = mkOutcome [] s1 (inr (hashlib.md5_hexdigest (url i))).
Proof.
  intros Hs Hl. cbv zeta.
  pose proof (proj1 (inv_images s (reachable_invariant s Hs) l i Hl)) as Hm.
  rewrite (hash_outcome h s l i Hl Hm). cbn [events final].
  split; [reflexivity|]. split; [apply settle_lookup|].
  split.
  { intros l' Hne. unfold settle. cbn [heap].
    now rewrite lookup_insert_ne by congruence. }
  split; [reflexivity|].
  rewrite (hash_outcome h' (settle s l i) l (memoized i)
             (settle_lookup s l i) (memoized_ok i)).
  now rewrite settle_settle.
Qed.

Lemma hash_is_computed_once_witness :
  let h := sample_host "nerdctl version 1.7.6" (fun _ => false) in
  let s := run_calls
             [(NewImage "docker://ubuntu" (sample_dag "/cache") false, h)]
             initial in
  heap (final (Image.hash 2%positive h s)) !! 2%positive
  = Some (OImage {| singularity := 1%positive; url := "docker://ubuntu";
                    _img_dir := "/cache"; is_containerized := false;
                    _hash := Some "bc944a5e6b96de252505ab409dacf2fd" |}).
Proof.
  cbv zeta.
  refine (eq_trans (proj1 (proj2
    (hash_is_computed_once
       (sample_host "nerdctl version 1.7.6" (fun _ => false))
       (sample_host "nerdctl version 1.7.6" (fun _ => false))
       (run_calls
          [(NewImage "docker://ubuntu" (sample_dag "/cache") false,
            sample_host "nerdctl version 1.7.6" (fun _ => false))]
          initial)
       2%positive
       {| singularity := 1%positive; url := "docker://ubuntu";
          _img_dir := "/cache"; is_containerized := false; _hash := None |}
       (reachable_run_calls _ _ reachable_initial) eq_refl))) _).
  vm_compute. reflexivity.
Defined.

(** ** Equality and hashing of images *)

Lemma dunder_hash_outcome (h : Host) (s : State) (l : loc) (i : ImageObj) :
  heap s !! l = Some (OImage i) -> memo_ok i ->
  Image.__hash__ l h s
  = mkOutcome [] (settle s l i)
      (inr (str_hash h (hashlib.md5_hexdigest (url i)))).
Proof.
  intros Hl Hm. cbv [Image.__hash__ bind].
  rewrite (hash_outcome h s l i Hl Hm). reflexivity.
Qed.

(** X12: [__hash__] is the hash that the host gives to the digest of
    the URL, so images that [__eq__] finds equal have the same
    [__hash__], whatever their cache directories and whether their
    digest was computed before or not. *)
Theorem eq_images_hash_alike (h : Host) (s : State) (a b : loc)
    (ia ib : ImageObj) :
  reachable s ->
  heap s !! a = Some (OImage ia) ->
  heap s !! b = Some (OImage ib) ->
  result (Image.__eq__ a b h s) = inr true ->
  result (Image.__hash__ a h s)
  = inr (str_hash h (hashlib.md5_hexdigest (url ia)))
  /\ forall calls calls',
       result (Image.__hash__ a h (run_calls calls s))
       = result (Image.__hash__ b h (run_calls calls' s)).
Proof.
  intros Hs Ha Hb Heq. pose proof (reachable_invariant s Hs) as Hinv.
  rewrite (eq_outcome h s a b ia ib Ha Hb) in Heq. cbn [result] in Heq.
  assert (Hu : url ia = url ib).
  { apply String.eqb_eq. congruence. }
  assert (Hlater : forall (l : loc) (i : ImageObj) calls,
            heap s !! l = Some (OImage i) ->
            result (Image.__hash__ l h (run_calls calls s))
            = inr (str_hash h (hashlib.md5_hexdigest (url i)))).
  { intros l i calls Hl.
    destruct (image_is_run_calls l (url i) (_img_dir i) calls s)
      as [Hinv' (i' & Hi' & Hu' & _)].
    { split; [exact Hinv | eauto]. }
    rewrite (dunder_hash_outcome h _ l i' Hi'
               (proj1 (inv_images _ Hinv' l i' Hi'))).
    cbn [result]. now rewrite Hu'. }
  split; [exact (Hlater a ia [] Ha)|].
  intros calls calls'.
  rewrite (Hlater a ia calls Ha), (Hlater b ib calls' Hb). now rewrite Hu.
Qed.

Lemma eq_images_hash_alike_witness :
  let h := sample_host "nerdctl version 1.7.6" (fun _ => false) in
  let s := run_calls
             [(NewImage "docker://ubuntu" (sample_dag "/cache/a") false, h);
              (NewImage "docker://ubuntu" (sample_dag "/cache/b") true, h)]
             initial in
  result (Image.__hash__ 2%positive h s) = inr 32%Z.
Proof.
  cbv zeta.
  refine (eq_trans (proj1
    (eq_images_hash_alike
       (sample_host "nerdctl version 1.7.6" (fun _ => false))
       (run_calls
          [(NewImage "docker://ubuntu" (sample_dag "/cache/a") false,
            sample_host "nerdctl version 1.7.6" (fun _ => false));
           (NewImage "docker://ubuntu" (sample_dag "/cache/b") true,
            sample_host "nerdctl version 1.7.6" (fun _ => false))]
          initial)
       2%positive 3%positive
       {| singularity := 1%positive; url := "docker://ubuntu";
          _img_dir := "/cache/a"; is_containerized := false; _hash := None |}
       {| singularity := 1%positive; url := "docker://ubuntu";
          _img_dir := "/cache/b"; is_containerized := true; _hash := None |}
       (reachable_run_calls _ _ reachable_initial) eq_refl eq_refl eq_refl))
    _).
  vm_compute. reflexivity.
Defined.

(** X13: on images [__eq__] is reflexive, symmetric and transitive; it
    causes no event and leaves the state as it is.  Against an object
    that is no image, such as the [Docker] singleton, it raises
    [AttributeError] on either side instead of answering [False]. *)
Theorem eq_is_an_equivalence_on_images (h : Host) (s : State) (a b c x : loc)
    (ia ib ic : ImageObj) (d : DockerObj) :
  heap s !! a = Some (OImage ia) ->
  heap s !! b = Some (OImage ib) ->
  heap s !! c = Some (OImage ic) ->
  heap s !! x = Some (ODocker d) ->
  Image.__eq__ a a h s = mkOutcome [] s (inr true)
  /\ Image.__eq__ a b h s = Image.__eq__ b a h s
  /\ (result (Image.__eq__ a b h s) = inr true ->
      result (Image.__eq__ b c h s) = inr true ->
      result (Image.__eq__ a c h s) = inr true)
  /\ events (Image.__eq__ a b h s) = []
  /\ final (Image.__eq__ a b h s) = s
  /\ Image.__eq__ a x h s = mkOutcome [] s (inl AttributeError)
  /\ Image.__eq__ x a h s = mkOutcome [] s (inl AttributeError).
Proof.
  intros Ha Hb Hc Hx.
  rewrite (eq_outcome h s a a ia ia Ha Ha), (eq_outcome h s a b ia ib Ha Hb),
    (eq_outcome h s b a ib ia Hb Ha), (eq_outcome h s b c ib ic Hb Hc),
    (eq_outcome h s a c ia ic Ha Hc).
  cbn [result events final].
  split; [now rewrite String.eqb_refl|].
  split; [now rewrite String.eqb_sym|].
  split.
  { intros [= E1] [= E2]. apply String.eqb_eq in E1, E2.
    f_equal. apply String.eqb_eq. congruence. }
  split; [reflexivity|]. split; [reflexivity|].
  split.
  - cbv [Image.__eq__ bind]. rewrite (image_at_outcome h s a ia Ha).
    cbv beta iota. cbv [image_at bind get raise]. now rewrite Hx.
  - cbv [Image.__eq__ bind]. cbv [image_at bind get raise]. now rewrite Hx.
Qed.

Lemma eq_is_an_equivalence_on_images_witness :
  let h := sample_host "nerdctl version 1.7.6" (fun _ => false) in
  let s := run_calls
             [(NewImage "docker://ubuntu" (sample_dag "/cache/a") false, h);
              (NewImage "docker://alpine" (sample_dag "/cache/a") false, h)]
             initial in
  Image.__eq__ 2%positive 1%positive h s = mkOutcome [] s (inl AttributeError).
Proof.
  cbv zeta.
  apply (eq_is_an_equivalence_on_images
           (sample_host "nerdctl version 1.7.6" (fun _ => false))
           (run_calls
              [(NewImage "docker://ubuntu" (sample_dag "/cache/a") false,
                sample_host "nerdctl version 1.7.6" (fun _ => false));
               (NewImage "docker://alpine" (sample_dag "/cache/a") false,
                sample_host "nerdctl version 1.7.6" (fun _ => false))]
              initial)
           2%positive 3%positive 2%positive 1%positive
           {| singularity := 1%positive; url := "docker://ubuntu";
              _img_dir := "/cache/a"; is_containerized := false;
              _hash := None |}
           {| singularity := 1%positive; url := "docker://alpine";
              _img_dir := "/cache/a"; is_containerized := false;
              _hash := None |}
           {| singularity := 1%positive; url := "docker://ubuntu";
              _img_dir := "/cache/a"; is_containerized := false;
              _hash := None |}
           fresh_docker);
    reflexivity.
Defined.

(** ** The file of a cached image *)

Lemma endswith_slash_split (a : string) :
  posixpath.endswith_slash a = true -> exists p, a = p +:+ "/".
Proof.
  induction a as [|x a IH]; [discriminate|].
  cbn [posixpath.endswith_slash]. destruct a as [|y a'].
  - intros H. apply Ascii.eqb_eq in H as ->. exists EmptyString. reflexivity.
  - intros H. destruct (IH H) as [p Hp]. exists (String x p).
    rewrite append_cons. now rewrite <- Hp.
Qed.

(** Splitting what was joined gives the file name back, when the name
    has no slash. *)
Lemma split_tail_join (dir name : string) :
  Py.contains "/" name = false ->
  posixpath.split_tail (posixpath.join dir name) = name.
Proof.
  intros Hn. unfold posixpath.join, posixpath.split_tail.
  rewrite (startswith_contains _ _ Hn).
  destruct dir as [|x dir']; [now apply after_last_absent|].
  cbn [Py.truthy negb orb].
  destruct (posixpath.endswith_slash (String x dir')) eqn:Hs.
  - apply after_last_app; [exact Hn|]. right.
    now apply endswith_slash_split.
  - rewrite <- append_assoc. apply after_last_app; [exact Hn|].
    right. eauto.
Qed.

Lemma length_append (a b : string) :
  String.length (a +:+ b) = (String.length a + String.length b)%nat.
Proof.
  induction a as [|x a IH]; [reflexivity|].
  rewrite append_cons. cbn [String.length]. now rewrite IH.
Qed.

(** X14: the path of a remote image is a file of the cache directory
    itself: its last component is the digest of the URL followed by
    [.simg], 37 characters, whatever the directory is. *)
Theorem path_file_name (h : Host) (s : State) (self : loc) (i : ImageObj)
    (p : string) :
  reachable s ->
  heap s !! self = Some (OImage i) ->
  is_local_file h (url i) = false ->
  result (Image.path self h s) = inr p ->
  posixpath.split_tail p = hashlib.md5_hexdigest (url i) +:+ ".simg"
  /\ String.length (posixpath.split_tail p) = 37%nat.
Proof.
  intros Hs Hi Hlocal Hp.
  pose proof (proj1 (inv_images s (reachable_invariant s Hs) self i Hi)) as Hm.
  rewrite (path_outcome h s self i Hi Hm), Hlocal in Hp.
  cbn [result] in Hp. injection Hp as <-.
  assert (E : posixpath.split_tail
                (posixpath.join (_img_dir i) (hashlib.md5_hexdigest (url i))
                 +:+ ".simg")
              = hashlib.md5_hexdigest (url i) +:+ ".simg").
  { rewrite join_digest, !append_assoc.
    rewrite <- (append_assoc (_img_dir i)).
    unfold posixpath.split_tail. apply after_last_app.
    - rewrite contains_app, md5_hexdigest_no_slash. reflexivity.
    - unfold join_sep. destruct (_img_dir i) as [|x dir'] eqn:Hd;
        [now left|].
      cbn [Py.truthy negb orb].
      destruct (posixpath.endswith_slash (String x dir')) eqn:Hsl.
      + right. rewrite append_nil_r. now apply endswith_slash_split.
      + right. eauto. }
  split; [exact E|]. rewrite E.
  rewrite length_append, md5_hexdigest_length. reflexivity.
Qed.

Lemma path_file_name_witness :
  let h := sample_host "nerdctl version 1.7.6" (fun _ => false) in
  let s := run_calls
             [(NewImage "docker://ubuntu" (sample_dag "/var/cache/") false, h)]
             initial in
  posixpath.split_tail "/var/cache/bc944a5e6b96de252505ab409dacf2fd.simg"
  = hashlib.md5_hexdigest "docker://ubuntu" +:+ ".simg".
Proof.
  cbv zeta.
  apply (path_file_name
           (sample_host "nerdctl version 1.7.6" (fun _ => false))
           (run_calls
              [(NewImage "docker://ubuntu" (sample_dag "/var/cache/") false,
                sample_host "nerdctl version 1.7.6" (fun _ => false))]
              initial)
           2%positive
           {| singularity := 1%positive; url := "docker://ubuntu";
              _img_dir := "/var/cache/"; is_containerized := false;
              _hash := None |}
           "/var/cache/bc944a5e6b96de252505ab409dacf2fd.simg").
  - apply reachable_run_calls, reachable_initial.
  - reflexivity.
  - reflexivity.
  - vm_compute. reflexivity.
Defined.

(** ** More on the command line *)


(** X16: the flag for a Python script and the working directory do
    nothing but add text to the arguments, the mount of the search path
    first and the working directory after it: the command line is the
    one that [shellcmd] returns when that text is passed as the
    arguments and the two parameters are switched off. *)
Theorem shellcmd_flags_extend_args (img_path cmd : string)
    (args : Py.arg string) (quiet : Py.arg bool)
    (envvars : Py.arg (option (list (string * string))))
    (sh wd : Py.arg (option string)) (py : Py.arg bool)
    (h : Host) (s : State) :
  result (shellcmd img_path cmd args quiet envvars sh wd py h s)
  = result (shellcmd img_path cmd (Py.Passed (final_args h args wd py)) quiet
              envvars sh (Py.Passed None) (Py.Passed false) h s)
  /\ (forall (a dir : string),
        Py.truthy dir = true ->
        final_args h (Py.Passed a) (Py.Passed (Some dir)) (Py.Passed true)
        = a +:+ " --bind " +:+ SNAKEMAKE_SEARCHPATH h +:+ ":/mnt/snakemake"
          +:+ " -w " +:+ dir +:+ " -v" +:+ getcwd h +:+ ":/data").
Proof.
  split.
  - assert (E : forall x : string,
              final_args h (Py.Passed x) (Py.Passed None) (Py.Passed false)
              = x).
    { intros x. unfold final_args, bind_args. cbn [Py.or_default].
      apply append_nil_r. }
    now rewrite !shellcmd_value, E.
  - intros a [|c d] Hd; [discriminate|].
    unfold final_args, bind_args, workdir_flags. cbn [Py.or_default].
    rewrite !append_assoc. reflexivity.
Qed.

Lemma shellcmd_flags_extend_args_witness :
  final_args (sample_host EmptyString (fun _ => false)) (Py.Passed "--net host")
    (Py.Passed (Some "/work")) (Py.Passed true)
  = "--net host --bind /opt/snakemake:/mnt/snakemake -w /work -v/home/user/workflow:/data".
Proof.
  apply (proj2 (shellcmd_flags_extend_args "img" "ls" Py.Omitted Py.Omitted
                  Py.Omitted Py.Omitted Py.Omitted Py.Omitted
                  (sample_host EmptyString (fun _ => false)) initial)
           "--net host" "/work").
  reflexivity.
Defined.



Example sh_word_examples :
  sh_word false "'echo '\''hi'\'''" = Some "echo 'hi'"
  /\ sh_word false "'echo 'hi''" = None
  /\ sh_word false "'open" = None.
Proof. repeat split; reflexivity. Qed.

(** ** Allocation *)

(** X18: [Docker()] writes to one location, that of the singleton,
    and to no other object; on the first call this is a location that
    held nothing, so no object is overwritten, and on later calls no
    location is added. *)
Theorem Docker_call_frame (h : Host) (s : State) :
  let s' := final (Docker.__call__ h s) in
  (forall l, l <> singleton_loc s -> heap s' !! l = heap s !! l)
  /\ (instance s = None -> heap s !! singleton_loc s = None)
  /\ (forall inst o, instance s = Some inst -> heap s !! inst = Some o ->
      dom (heap s') = dom (heap s)).
Proof.
  cbv zeta. rewrite Docker_call_outcome. cbn [final heap].
  split; [|split].
  - intros l Hne. now rewrite lookup_insert_ne by congruence.
  - intros Hnone. unfold singleton_loc. rewrite Hnone. apply fresh_unused.
  - intros inst o Hinst Ho. unfold singleton_loc. rewrite Hinst.
    rewrite dom_insert_L. apply elem_of_dom_2 in Ho.
    apply set_eq. intros l. rewrite elem_of_union, elem_of_singleton.
    split; [intros [-> | Hin]; assumption | now right].
Qed.

Lemma Docker_call_frame_witness :
  let h := sample_host "nerdctl version 1.7.6" (fun _ => false) in
  let s := run_calls
             [(NewImage "docker://ubuntu" (sample_dag "/cache") false, h)]
             initial in
  dom (heap (final (Docker.__call__ h s))) = dom (heap s).
Proof.
  cbv zeta.
  apply (proj2 (proj2 (Docker_call_frame
           (sample_host "nerdctl version 1.7.6" (fun _ => false))
           (run_calls
              [(NewImage "docker://ubuntu" (sample_dag "/cache") false,
                sample_host "nerdctl version 1.7.6" (fun _ => false))]
              initial)))
           1%positive (ODocker fresh_docker));
    reflexivity.
Defined.

(** X19: a construction that succeeds puts the image at a location
    that held nothing and that is not the singleton, so images
    constructed one after the other are different objects; apart from
    the new image and the singleton, which is reset, no object
    changes. *)
Theorem Image_init_frame (h : Host) (s : State) (u : string) (dag : DAG)
    (c : bool) :
  Py.contains " " u = false ->
  exists l,
    result (Image.__init__ u dag c h s) = inr l
    /\ heap s !! l = None
    /\ l <> singleton_loc s
    /\ (forall l', l' <> l -> l' <> singleton_loc s ->
        heap (final (Image.__init__ u dag c h s)) !! l' = heap s !! l')
    /\ (forall u' dag' c' h' l',
          result (Image.__init__ u' dag' c' h'
                    (final (Image.__init__ u dag c h s))) = inr l' ->
          l' <> l).
Proof.
  intros Hu. rewrite (Image_init_outcome h s u dag c Hu).
  cbn [result final heap].
  set (s1 := {| instance := Some (singleton_loc s);
                heap := <[singleton_loc s := ODocker fresh_docker]> (heap s) |}).
  set (i := {| singularity := singleton_loc s; url := u;
               _img_dir := container_img_path (persistence (workflow dag));
               is_containerized := c; _hash := None |}).
  change (<[singleton_loc s := ODocker fresh_docker]> (heap s))
    with (heap s1).
  pose proof (fresh_unused s1) as Hfresh.
  assert (Hne : fresh (dom (heap s1)) <> singleton_loc s).
  { apply (fresh_differs _ _ (ODocker fresh_docker)).
    unfold s1. cbn [heap]. apply lookup_insert_eq. }
  exists (fresh (dom (heap s1))). split; [reflexivity|].
  split.
  { rewrite <- (lookup_insert_ne (heap s) (singleton_loc s)
                  (fresh (dom (heap s1))) (ODocker fresh_docker));
      [exact Hfresh | intros E; apply Hne; symmetry; exact E]. }
  split; [exact Hne|]. split.
  - intros l' H1 H2. rewrite lookup_insert_ne by congruence.
    unfold s1. cbn [heap]. now rewrite lookup_insert_ne by congruence.
  - intros u' dag' c' h' l' Hr.
    destruct (Py.contains " " u') eqn:Hu'.
    { rewrite Image_init_rejected in Hr by exact Hu'. discriminate. }
    rewrite (Image_init_outcome h' _ u' dag' c' Hu') in Hr.
    cbn [result] in Hr. injection Hr as <-.
    apply (fresh_differs _ _ (OImage i)).
    cbn [heap]. rewrite lookup_insert_ne.
    + apply lookup_insert_eq.
    + intros E. apply Hne. symmetry. exact E.
Qed.

Lemma Image_init_frame_witness :
  let h := sample_host "nerdctl version 1.7.6" (fun _ => false) in
  exists l,
    result (Image.__init__ "docker://ubuntu" (sample_dag "/cache") false h
              initial) = inr l
    /\ heap initial !! l = None.
Proof.
  cbv zeta.
  destruct (Image_init_frame
              (sample_host "nerdctl version 1.7.6" (fun _ => false)) initial
              "docker://ubuntu" (sample_dag "/cache") false eq_refl)
    as (l & H1 & H2 & _).
  exists l. split; assumption.
Defined.
